(** * SSOHandler: connection resolution, request construction and sessions

    A shallow embedding of [npm/src/controller/sso-handler.ts] (class
    [SSOHandler]) and the properties of it that the design document states.

    Conventions.
    - A JavaScript string is a Rocq [string], read as the sequence of its
      UTF-8 bytes; a [Buffer] is a [list Byte.byte].
    - An optional parameter [x?: string] is an [option string]; its use as a
      condition ([if (x)], [x && y]) is JavaScript truthiness, see [truthy].
    - A promise is a computation in the monad [M]: it threads the observable
      state (session store, random source, log of collaborator calls) and
      either fulfils with a value or rejects with an [Error]. *)

From Stdlib Require Import NArith ZArith Ascii.
From stdpp Require Import base gmap strings list.

Local Open Scope N_scope.

(** ** Node built-ins: Buffer encodings *)

Module Encoding.

(** [Buffer.from(s)]: the bytes of a string. *)
Definition bytesOf (s : string) : list Byte.byte := String.list_byte_of_string s.

Definition lowerHexDigit (n : N) : ascii :=
  if n <? 10 then ascii_of_N (48 + n) else ascii_of_N (87 + n).

Definition upperHexDigit (n : N) : ascii :=
  if n <? 10 then ascii_of_N (48 + n) else ascii_of_N (55 + n).

(** [buf.toString('hex')]: two lower-case digits per byte. *)
Fixpoint toHex (l : list Byte.byte) : string :=
  match l with
  | [] => EmptyString
  | b :: r =>
      let n := Byte.to_N b in
      String (lowerHexDigit (n / 16)) (String (lowerHexDigit (n mod 16)) (toHex r))
  end.

(** The base64 alphabet of RFC 4648, section 4. *)
Definition base64Digit (n : N) : ascii :=
  if n <? 26 then ascii_of_N (65 + n)
  else if n <? 52 then ascii_of_N (71 + n)
  else if n <? 62 then ascii_of_N (n - 4)
  else if n =? 62 then "+"%char
  else "/"%char.

(** [buf.toString('base64')]: three bytes give four digits, the last group
    is padded with [=]. *)
Fixpoint toBase64 (l : list Byte.byte) : string :=
  match l with
  | [] => EmptyString
  | [a] =>
      let x := Byte.to_N a in
      String (base64Digit (x / 4))
        (String (base64Digit ((x mod 4) * 16)) "==")
  | [a; b] =>
      let x := Byte.to_N a in
      let y := Byte.to_N b in
      String (base64Digit (x / 4))
        (String (base64Digit ((x mod 4) * 16 + y / 16))
           (String (base64Digit ((y mod 16) * 4)) "="))
  | a :: b :: c :: r =>
      let x := Byte.to_N a in
      let y := Byte.to_N b in
      let z := Byte.to_N c in
      String (base64Digit (x / 4))
        (String (base64Digit ((x mod 4) * 16 + y / 16))
           (String (base64Digit ((y mod 16) * 4 + z / 64))
              (String (base64Digit (z mod 64)) (toBase64 r))))
  end.

(** The application/x-www-form-urlencoded byte serializer used by
    [URLSearchParams.prototype.toString]: alphanumerics and [*-._] stay,
    a space becomes [+], every other byte becomes [%XX]. *)
Definition isUnreservedForm (n : N) : bool :=
  ((48 <=? n) && (n <=? 57)) || ((65 <=? n) && (n <=? 90))
  || ((97 <=? n) && (n <=? 122))
  || (n =? 42) || (n =? 45) || (n =? 46) || (n =? 95).

Fixpoint formEncode (s : string) : string :=
  match s with
  | EmptyString => EmptyString
  | String c r =>
      let n := N_of_ascii c in
      if isUnreservedForm n then String c (formEncode r)
      else if n =? 32 then String "+"%char (formEncode r)
      else String "%"%char
             (String (upperHexDigit (n / 16))
                (String (upperHexDigit (n mod 16)) (formEncode r)))
  end.

(** [haystack.includes(needle)]. *)
Fixpoint includes (needle haystack : string) : bool :=
  String.prefix needle haystack ||
  match haystack with
  | EmptyString => false
  | String _ r => includes needle r
  end.

End Encoding.

(** ** JavaScript values and objects *)

Module Js.

(** [if (x)] for [x : string | undefined]: [undefined] and the empty string
    are falsy. *)
Definition truthy (x : option string) : bool :=
  match x with
  | Some s => negb (String.eqb s "")
  | None => false
  end.

(** [`${x}`] and the string conversion of property values: [undefined]
    prints as the word itself. *)
Definition toString (x : option string) : string :=
  match x with
  | Some s => s
  | None => "undefined"
  end.

(** The values a [Record<string, any>] of request parameters carries. *)
Inductive Value :=
| Undefined
| Null
| Bool (b : bool)
| Num (z : Z)
| Str (s : string).

(** A [Record<string, string>] whose enumeration order is observable is the
    list of its own properties in enumeration order, each key once. *)
Definition Object := list (string * string).

Definition get (k : string) (o : Object) : option string :=
  snd <$> find (λ kv, String.eqb k kv.1) o.

Definition has (k : string) (o : Object) : bool :=
  existsb (λ kv, String.eqb k kv.1) o.

Definition isDigit (c : ascii) : bool :=
  let n := N_of_ascii c in (48 <=? n) && (n <=? 57).

Fixpoint digitsValue (s : string) (acc : N) : option N :=
  match s with
  | EmptyString => Some acc
  | String c r =>
      if isDigit c then digitsValue r (10 * acc + (N_of_ascii c - 48)) else None
  end.

(** A property key is an array index when it is the canonical decimal
    numeral of an integer below 2^32 - 1; such keys are enumerated first,
    in ascending order, before all other keys. *)
Definition arrayIndex (k : string) : option N :=
  match k with
  | EmptyString => None
  | String c r =>
      if Ascii.eqb c "0" && negb (String.eqb r "") then None
      else match digitsValue k 0 with
           | Some n => if n <? 4294967295 then Some n else None
           | None => None
           end
  end.

Fixpoint replace (k v : string) (o : Object) : Object :=
  match o with
  | [] => []
  | (k', v') :: r =>
      if String.eqb k k' then (k', v) :: r else (k', v') :: replace k v r
  end.

Fixpoint insertIndex (n : N) (k v : string) (o : Object) : Object :=
  match o with
  | [] => [(k, v)]
  | (k', v') :: r =>
      match arrayIndex k' with
      | Some n' => if n' <? n then (k', v') :: insertIndex n k v r else (k, v) :: o
      | None => (k, v) :: o
      end
  end.

(** [o[k] = v] on an ordinary object: an existing property keeps its place,
    a new one is enumerated after the existing ones (array indices apart). *)
Definition set (k v : string) (o : Object) : Object :=
  if has k o then replace k v o
  else match arrayIndex k with
       | Some n => insertIndex n k v o
       | None => o ++ [(k, v)]
       end.

(** [{ ...o, ...src }]: the properties of [src] are set on [o] in their
    enumeration order. *)
Definition assign (o src : Object) : Object :=
  fold_left (λ acc kv, set kv.1 kv.2 acc) src o.

(** An object literal [{ k1: v1, ..., kn: vn }]. *)
Definition literal (props : list (string * string)) : Object := assign [] props.

(** [new URLSearchParams(o).toString()]. *)
Fixpoint joinAmp (l : list string) : string :=
  match l with
  | [] => ""
  | [x] => x
  | x :: r => x +:+ "&" +:+ joinAmp r
  end.

Definition searchParams (o : Object) : string :=
  joinAmp ((λ kv, Encoding.formEncode kv.1 +:+ "=" +:+ Encoding.formEncode kv.2) <$> o).

End Js.

Module JsValue.

Import Js.

(** [!!v]. *)
Definition toBoolean (v : Value) : bool :=
  match v with
  | Undefined | Null => false
  | Bool b => b
  | Num z => negb (Z.eqb z 0)
  | Str s => negb (String.eqb s "")
  end.

Definition ofOption (x : option string) : Value :=
  match x with
  | Some s => Str s
  | None => Undefined
  end.

(** [o.k] on a record of values: a missing property reads [undefined]. *)
Definition prop (k : string) (o : gmap string Value) : Value :=
  default Undefined (o !! k).

End JsValue.

(** ** Data model *)

(** [connection.idpMetadata.sso]: [None] is an absent key, as tested by
    ['redirectUrl' in sso]. *)
Record SSOEndpoints := {
  redirectUrl : option string;
  postUrl : option string;
}.

Record IdPMetadata := {
  sso : SSOEndpoints;
}.

Record SAMLSSORecord := {
  saml_clientID : string;
  idpMetadata : IdPMetadata;
  forceAuthn : Js.Value;
  identifierFormat : option string;
}.

Record OIDCProvider := {
  discoveryUrl : option string;
  metadata : option (gmap string Js.Value);
  clientId : option string;
  clientSecret : option string;
}.

Record OIDCSSORecord := {
  oidc_clientID : string;
  oidcProvider : OIDCProvider;
}.

Inductive SSORecord :=
| SAMLRecord (r : SAMLSSORecord)
| OIDCRecord (r : OIDCSSORecord).

(** [c.clientID], a field of both variants. *)
Definition clientID (c : SSORecord) : string :=
  match c with
  | SAMLRecord r => saml_clientID r
  | OIDCRecord r => oidc_clientID r
  end.

(** The members of [IndexNames] this file uses. *)
Inductive IndexNames :=
| EntityID
| TenantProduct.

(** The result of [Storable.getByIndex]. *)
Record Records := {
  data : list SSORecord;
  pageToken : option string;
}.

(** The fields of [JacksonOption] read by the handler. *)
Record JacksonOption := {
  externalUrl : string;
  samlPath : string;
  samlAudience : option string;
  idpDiscoveryPath : option string;
  oidcPath : option string;
}.

Inductive AuthFlow :=
| oauth
| saml
| idp_initiated.

Definition authFlowName (f : AuthFlow) : string :=
  match f with
  | oauth => "oauth"
  | saml => "saml"
  | idp_initiated => "idp-initiated"
  end.

(** The argument of [resolveConnection]. *)
Record ResolveParams := {
  authFlow : AuthFlow;
  originalParams : Js.Object;
  tenant : option string;
  product : option string;
  entityId : option string;
  idp_hint : option string;
  samlFedAppId : option string;
}.

(** The three shapes [resolveConnection] resolves to. *)
Inductive Resolution :=
| Connection (connection : SSORecord)
| RedirectUrl (redirectUrl : string)
| PostForm (postForm : string).

(** The record [createSession] stores. *)
Record Session := {
  id : string;
  requested : gmap string Js.Value;
  samlFederated : bool;
  oidcCodeVerifier : option string;
  oidcNonce : option string;
}.

Definition set_oidcCodeVerifier (v : string) (s : Session) : Session :=
  {| id := id s; requested := requested s; samlFederated := samlFederated s;
     oidcCodeVerifier := Some v; oidcNonce := oidcNonce s |}.

Definition set_oidcNonce (v : string) (s : Session) : Session :=
  {| id := id s; requested := requested s; samlFederated := samlFederated s;
     oidcCodeVerifier := oidcCodeVerifier s; oidcNonce := Some v |}.

(** [createSession], lines 305 to 317: the record and its optional fields. *)
Definition newSession (requestId : string) (requested : gmap string Js.Value)
    (oidcCodeVerifier oidcNonce : option string) : Session :=
  let session :=
    {| id := requestId; requested := requested; samlFederated := true;
       oidcCodeVerifier := None; oidcNonce := None |} in
  let session :=
    if Js.truthy oidcCodeVerifier
    then set_oidcCodeVerifier (Js.toString oidcCodeVerifier) session else session in
  let session :=
    if Js.truthy oidcNonce
    then set_oidcNonce (Js.toString oidcNonce) session else session in
  session.

Record Certificate := {
  publicKey : string;
  privateKey : string;
}.

(** The argument and the result of [saml.request]. *)
Record SAMLRequestOptions := {
  req_ssoUrl : option string;
  req_entityID : string;
  req_callbackUrl : string;
  req_signingKey : string;
  req_publicKey : string;
  req_forceAuthn : bool;
  req_identifierFormat : string;
}.

Record AuthnRequest := {
  request_id : string;
  request : string;
}.

(** The result of [createSAMLRequest]; an unassigned [let] is [None]. *)
Record SAMLRequestResult := {
  redirect_url : option string;
  authorize_form : option string;
}.

(** The results of [createOIDCRequest] and of [createSAMLResponse]. *)
Record OIDCRequestResult := {
  oidc_redirect_url : string;
}.

Record SAMLResponseResult := {
  responseForm : string;
}.

Record SAMLProfile := {
  profile_audience : string;
  profile_claims : gmap string Js.Value;
  profile_issuer : string;
  profile_sessionIndex : string;
}.

(** The argument of [createSAMLResponse] of [../saml/lib]. *)
Record SAMLResponseOptions := {
  resp_audience : Js.Value;
  resp_acsUrl : Js.Value;
  resp_requestId : Js.Value;
  resp_issuer : string;
  resp_profile : SAMLProfile;
  resp_publicKey : string;
  resp_privateKey : string;
}.

(** openid-client: issuer, client metadata, client, authorization parameters. *)
Record Issuer := {
  issuer_metadata : gmap string Js.Value;
}.

Record ClientMetadata := {
  client_id : option string;
  client_secret : option string;
  redirect_uris : list string;
  response_types : list string;
}.

Record Client := {
  client_issuer : Issuer;
  client_metadata : ClientMetadata;
}.

Record AuthorizationParameters := {
  scope : string;
  code_challenge : string;
  code_challenge_method : string;
  state : string;
  nonce : string;
}.

(** ** Errors and promises *)

(** What an operation rejects with: a [JacksonError] (message, HTTP status) of
    the handler's own, or any other exception raised by a collaborator. *)
Inductive Error :=
| JacksonError (message : string) (statusCode : Z)
| Thrown (name message : string).

(** [err.message]. *)
Definition message (e : Error) : string :=
  match e with
  | JacksonError m _ => m
  | Thrown _ m => m
  end.

Inductive Res (A : Type) :=
| Ok (a : A)
| Err (e : Error).

Arguments Ok {A} a.
Arguments Err {A} e.

(** Calls that leave the handler, in the order they were made. *)
Inductive Event :=
| GetByIndex (name : IndexNames) (value : string)
| SessionPut (key : string) (value : Session)
| GetDefaultCertificate
| SamlRequest (options : SAMLRequestOptions)
| DeflateRaw (input : string)
| RandomBytes (size : nat)
| CreateSAMLResponse (options : SAMLResponseOptions)
| OidcIssuerInstance (discoveryUrl : option string)
| GenerateCodeVerifier
| GenerateNonce
| ConsoleError (e : Error).

(** The observable state: the contents of the session store, the number of
    draws the code of this file has taken from the random source (its own
    calls to [crypto.randomBytes] and to [generators]; what a collaborator
    draws inside its own code is not counted), and the log of calls. *)
Record State := {
  sessions : gmap string Session;
  draws : nat;
  trace : list Event;
}.

Definition record (ev : Event) (s : State) : State :=
  {| sessions := sessions s; draws := draws s; trace := trace s ++ [ev] |}.

Definition M (A : Type) : Type := State → Res A * State.

Definition ret {A} (a : A) : M A := λ s, (Ok a, s).

Definition throw {A} (e : Error) : M A := λ s, (Err e, s).

Definition bind {A B} (m : M A) (k : A → M B) : M B :=
  λ s, match m s with
       | (Ok a, s') => k a s'
       | (Err e, s') => (Err e, s')
       end.

(** [try { m } catch (err) { h err }]. *)
Definition tryCatch {A} (m : M A) (h : Error → M A) : M A :=
  λ s, match m s with
       | (Ok a, s') => (Ok a, s')
       | (Err e, s') => h e s'
       end.

(** A synchronous call that may throw and has no effect of its own. *)
Definition lift {A} (r : Res A) : M A := λ s, (r, s).

(** A call to a collaborator: it is logged, then fulfils or rejects. What
    the collaborator does inside, random bytes it draws for itself included,
    is part of its answer. *)
Definition call {A} (ev : Event) (r : Res A) : M A := λ s, (r, record ev s).

(** A computation only ever adds to the log of calls. *)
Definition grows {A} (m : M A) : Prop :=
  ∀ s, ∃ later, trace (m s).2 = trace s ++ later.

Notation "x <- m ;; k" := (bind m (λ x, k))
  (at level 100, m at next level, right associativity).

(** ** Collaborators *)

(** The methods of [Storable] the handler calls: what the store of
    connections answers to an index query, and whether the store of sessions
    accepts a write. The sessions written are kept in [sessions]. *)
Record Storable := {
  getByIndex : IndexNames → string → Res Records;
  put : string → Session → Res unit;
}.

(** The fields of an [SSOHandler]. *)
Record SSOHandler := {
  connection : Storable;
  session : Storable;
  opts : JacksonOption;
}.

(** What the file imports and does not define: [getDefaultCertificate]
    (../saml/x509), [saml.request] and [saml.createPostForm] (@boxyhq/saml20),
    [deflateRaw] (zlib), the random source behind [crypto.randomBytes],
    [dbutils.keyFromParts], [relayStatePrefix], [createSAMLResponse]
    (../saml/lib), [redirect.success], [oidcIssuerInstance], the client
    constructor, [authorizationUrl] and [generators] of openid-client, and the
    serialization [new URL(s).href]. *)
Record Imports := {
  getDefaultCertificate : Res Certificate;
  saml_request : SAMLRequestOptions → Res AuthnRequest;
  saml_createPostForm : Js.Value → list (string * Js.Value) → string;
  deflateRaw : string → Res (list Byte.byte);
  randomSource : nat → nat → Byte.byte;
  keyFromParts : string → string → string;
  relayStatePrefix : string;
  lib_createSAMLResponse : SAMLResponseOptions → Res string;
  redirect_success : option string → Js.Object → Res string;
  oidcIssuerInstance : option string → option (gmap string Js.Value) → Res Issuer;
  issuer_Client : Issuer → ClientMetadata → Res Client;
  client_authorizationUrl : Client → AuthorizationParameters → Res string;
  generators_codeVerifier : nat → string;
  generators_codeChallenge : string → string;
  generators_nonce : nat → string;
  URL_href : string → Res string;
}.

(** ** The handler *)

Section Handler.

Variable env : Imports.
Variable this : SSOHandler.

(** [crypto.randomBytes(size)] as this file calls it: [randomSource env n] is
    what the [n]-th draw made by the code of this file returns. *)
Definition randomBytes (size : nat) : M (list Byte.byte) :=
  λ s, (Ok (randomSource env (draws s) <$> seq 0 size),
        {| sessions := sessions s; draws := S (draws s);
           trace := trace s ++ [RandomBytes size] |}).

(** [generators.codeVerifier()] and [generators.nonce()]. *)
Definition codeVerifier : M string :=
  λ s, (Ok (generators_codeVerifier env (draws s)),
        {| sessions := sessions s; draws := S (draws s);
           trace := trace s ++ [GenerateCodeVerifier] |}).

Definition generateNonce : M string :=
  λ s, (Ok (generators_nonce env (draws s)),
        {| sessions := sessions s; draws := S (draws s);
           trace := trace s ++ [GenerateNonce] |}).

(** Modelled from the spec: the store behind [this.session.put] (an
    implementation of [Storable], which this file only imports as a type) is
    a key-value store with read-after-write consistency per key: a write the
    store accepts is visible to a later lookup of [key]. Whether it accepts
    is the collaborator's answer, [put]. *)
Definition sessionPut (key : string) (value : Session) : M unit :=
  λ s, match put (session this) key value with
       | Ok _ =>
           (Ok (), {| sessions := <[key := value]> (sessions s); draws := draws s;
                      trace := trace s ++ [SessionPut key value] |})
       | Err e => (Err e, record (SessionPut key value) s)
       end.

Definition noSSOConnectionErrMessage : string := "No SSO connection found.".

(** [resolveConnection], lines 63 to 82: the two index lookups. *)
Definition lookupConnections (params : ResolveParams) : M (option (list SSORecord)) :=
  connections <-
    (if Js.truthy (tenant params) && Js.truthy (product params) then
       let key := keyFromParts env (Js.toString (tenant params))
                    (Js.toString (product params)) in
       r <- call (GetByIndex TenantProduct key)
              (getByIndex (connection this) TenantProduct key) ;;
       ret (Some (data r))
     else ret None) ;;
  if Js.truthy (entityId params) then
    let value := Js.toString (entityId params) in
    r <- call (GetByIndex EntityID value)
           (getByIndex (connection this) EntityID value) ;;
    ret (Some (data r))
  else ret connections.

(** [resolveConnection], lines 107 to 113: the properties written before the
    original parameters are spread. *)
Definition discoveryParameters (params : ResolveParams) : list (string * string) :=
  [("tenant", Js.toString (tenant params));
   ("product", Js.toString (product params));
   ("authFlow", "sp-initiated");
   ("samlFedAppId", default "" (samlFedAppId params))].

(** [resolveConnection], lines 84 to 137: from the connections found to the
    resolution. *)
Definition selectConnection (params : ResolveParams)
    (connections : option (list SSORecord)) : M Resolution :=
  match connections with
  | None | Some [] => throw (JacksonError noSSOConnectionErrMessage 404)
  | Some ((first :: _) as connections) =>
      if Js.truthy (idp_hint params) then
        match find (λ c, String.eqb (clientID c) (Js.toString (idp_hint params)))
                connections with
        | None => throw (JacksonError noSSOConnectionErrMessage 404)
        | Some connection => ret (Connection connection)
        end
      else if (1 <? length connections)%nat then
        url <- lift (URL_href env (externalUrl (opts this)
                                     +:+ Js.toString (idpDiscoveryPath (opts this)))) ;;
        if match authFlow params with oauth | saml => true | idp_initiated => false end
           && Js.truthy (tenant params) && Js.truthy (product params) then
          let params' :=
            Js.searchParams
              (Js.assign (Js.literal (discoveryParameters params))
                 (originalParams params)) in
          ret (RedirectUrl (url +:+ "?" +:+ params'))
        else if match authFlow params with idp_initiated => true | _ => false end
                && Js.truthy (entityId params) then
          let params' :=
            Js.searchParams
              (Js.literal [("entityId", Js.toString (entityId params));
                           ("authFlow", authFlowName (authFlow params))]) in
          let postForm :=
            saml_createPostForm env
              (Js.Str (Js.toString (idpDiscoveryPath (opts this)) +:+ "?" +:+ params'))
              [("SAMLResponse",
                JsValue.ofOption (Js.get "SAMLResponse" (originalParams params)))] in
          ret (PostForm postForm)
        else ret (Connection first)
      else ret (Connection first)
  end.

Definition resolveConnection (params : ResolveParams) : M Resolution :=
  connections <- lookupConnections params ;;
  selectConnection params connections.

(** Create a new session to store SP request information. *)
Definition createSession (requestId : string) (requested : gmap string Js.Value)
    (oidcCodeVerifier oidcNonce : option string) : M string :=
  bytes <- randomBytes 16 ;;
  let sessionId := Encoding.toHex bytes in
  let session := newSession requestId requested oidcCodeVerifier oidcNonce in
  _ <- sessionPut sessionId session ;;
  ret (relayStatePrefix env +:+ sessionId).

(** The session identifier [createSession] generates when started in [s]:
    the hexadecimal form of the next 16 random bytes. *)
Definition nextSessionId (s : State) : string :=
  Encoding.toHex (randomSource env (draws s) <$> seq 0 16).

(** [createSAMLRequest], lines 150 to 160: the endpoint and the binding. *)
Definition selectEndpoint (sso : SSOEndpoints) : option string * bool :=
  match redirectUrl sso with
  | Some url => (Some url, false)
  | None =>
      match postUrl sso with
      | Some url => (Some url, true)
      | None => (None, false)
      end
  end.

Definition samlRequestOptions (connection : SAMLSSORecord)
    (certificate : Certificate) (ssoUrl : option string) : SAMLRequestOptions :=
  {| req_ssoUrl := ssoUrl;
     req_entityID := Js.toString (samlAudience (opts this));
     req_callbackUrl := externalUrl (opts this) +:+ samlPath (opts this);
     req_signingKey := privateKey certificate;
     req_publicKey := publicKey certificate;
     req_forceAuthn := JsValue.toBoolean (forceAuthn connection);
     req_identifierFormat :=
       if Js.truthy (identifierFormat connection)
       then Js.toString (identifierFormat connection)
       else "urn:oasis:names:tc:SAML:1.1:nameid-format:emailAddress" |}.

(** [createSAMLRequest], lines 176 to 179: the context kept in the session. *)
Definition samlRequested (connection : SAMLSSORecord)
    (requestParams : gmap string Js.Value) : gmap string Js.Value :=
  <["client_id" := Js.Str (saml_clientID connection)]> requestParams.

(** [createSAMLRequest], lines 182 to 207: HTTP Redirect or HTTP POST. *)
Definition encodeBinding (ssoUrl : option string) (post : bool)
    (samlRequest : AuthnRequest) (relayState : string) : M SAMLRequestResult :=
  if negb post then
    deflated <- call (DeflateRaw (request samlRequest))
                  (deflateRaw env (request samlRequest)) ;;
    redirectUrl <-
      lift (redirect_success env ssoUrl
              (Js.literal [("RelayState", relayState);
                           ("SAMLRequest", Encoding.toBase64 deflated)])) ;;
    ret {| redirect_url := Some redirectUrl; authorize_form := None |}
  else
    let authorizeForm :=
      saml_createPostForm env (JsValue.ofOption ssoUrl)
        [("RelayState", Js.Str relayState);
         ("SAMLRequest",
          Js.Str (Encoding.toBase64 (Encoding.bytesOf (request samlRequest))))] in
    ret {| redirect_url := None; authorize_form := Some authorizeForm |}.

Definition createSAMLRequest (connection : SAMLSSORecord)
    (requestParams : gmap string Js.Value) : M SAMLRequestResult :=
  certificate <- call GetDefaultCertificate (getDefaultCertificate env) ;;
  let '(ssoUrl, post) := selectEndpoint (sso (idpMetadata connection)) in
  let options := samlRequestOptions connection certificate ssoUrl in
  samlRequest <- call (SamlRequest options) (saml_request env options) ;;
  relayState <-
    createSession (request_id samlRequest)
      (samlRequested connection requestParams) None None ;;
  encodeBinding ssoUrl post samlRequest relayState.

(** The state in which [createSAMLRequest] encodes the request: certificate
    fetched, request built, session written. *)
Definition afterSession (connection : SAMLSSORecord)
    (requestParams : gmap string Js.Value) (certificate : Certificate)
    (samlRequest : AuthnRequest) (s : State) : State :=
  {| sessions :=
       <[nextSessionId s :=
           newSession (request_id samlRequest)
             (samlRequested connection requestParams) None None]> (sessions s);
     draws := S (draws s);
     trace :=
       trace s
       ++ [GetDefaultCertificate;
           SamlRequest
             (samlRequestOptions connection certificate
                (selectEndpoint (sso (idpMetadata connection))).1);
           RandomBytes 16;
           SessionPut (nextSessionId s)
             (newSession (request_id samlRequest)
                (samlRequested connection requestParams) None None)] |}.

Definition createOIDCRequest (connection : OIDCSSORecord)
    (requestParams : gmap string Js.Value) : M OIDCRequestResult :=
  if negb (Js.truthy (oidcPath (opts this))) then
    throw (JacksonError "OpenID response handler path (oidcPath) is not set" 400)
  else
    let provider := oidcProvider connection in
    tryCatch
      (oidcIssuer <- call (OidcIssuerInstance (discoveryUrl provider))
                       (oidcIssuerInstance env (discoveryUrl provider)
                          (metadata provider)) ;;
       oidcClient <-
         lift (issuer_Client env oidcIssuer
                 {| client_id := clientId provider;
                    client_secret := clientSecret provider;
                    redirect_uris :=
                      [externalUrl (opts this) +:+ Js.toString (oidcPath (opts this))];
                    response_types := ["code"] |}) ;;
       oidcCodeVerifier <- codeVerifier ;;
       let code_challenge := generators_codeChallenge env oidcCodeVerifier in
       oidcNonce <- generateNonce ;;
       relayState <-
         createSession (oidc_clientID connection) requestParams
           (Some oidcCodeVerifier) (Some oidcNonce) ;;
       ssoUrl <-
         lift (client_authorizationUrl env oidcClient
                 {| scope := "openid email profile";
                    code_challenge := code_challenge;
                    code_challenge_method := "S256";
                    state := relayState;
                    nonce := oidcNonce |}) ;;
       ret {| oidc_redirect_url := ssoUrl |})
      (λ err,
         _ <- call (ConsoleError err) (Ok ()) ;;
         throw (JacksonError
                  ("Unable to complete OIDC request. - " +:+ message err) 400)).

Definition samlResponseOptions (profile : SAMLProfile) (session : Session)
    (certificate : Certificate) : SAMLResponseOptions :=
  {| resp_audience := JsValue.prop "entityId" (requested session);
     resp_acsUrl := JsValue.prop "acsUrl" (requested session);
     resp_requestId := JsValue.prop "id" (requested session);
     resp_issuer := Js.toString (samlAudience (opts this));
     resp_profile := profile;
     resp_publicKey := publicKey certificate;
     resp_privateKey := privateKey certificate |}.

Definition createSAMLResponse (profile : SAMLProfile) (session : Session) :
    M SAMLResponseResult :=
  certificate <- call GetDefaultCertificate (getDefaultCertificate env) ;;
  tryCatch
    (let options := samlResponseOptions profile session certificate in
     responseSigned <- call (CreateSAMLResponse options)
                         (lib_createSAMLResponse env options) ;;
     let responseForm :=
       saml_createPostForm env (JsValue.prop "acsUrl" (requested session))
         [("RelayState", JsValue.prop "relayState" (requested session));
          ("SAMLResponse",
           Js.Str (Encoding.toBase64 (Encoding.bytesOf responseSigned)))] in
     ret {| responseForm := responseForm |})
    (λ _, throw (JacksonError "Unable to validate SAML Response." 403)).

End Handler.

(** ** A concrete deployment

    One broker, its two stores and stand-ins for the imported libraries, on
    which the handler can be run. *)

Module Demo.

Definition okta : SSORecord :=
  SAMLRecord {| saml_clientID := "client-okta";
                idpMetadata :=
                  {| sso := {| redirectUrl := Some "https://okta.example.com/sso/redirect";
                               postUrl := Some "https://okta.example.com/sso/post" |} |};
                forceAuthn := Js.Undefined;
                identifierFormat := None |}.

Definition azure : SSORecord :=
  SAMLRecord {| saml_clientID := "client-azure";
                idpMetadata :=
                  {| sso := {| redirectUrl := None;
                               postUrl := Some "https://login.example.net/saml2" |} |};
                forceAuthn := Js.Bool true;
                identifierFormat := None |}.

Definition google : SSORecord :=
  OIDCRecord {| oidc_clientID := "client-google";
                oidcProvider :=
                  {| discoveryUrl :=
                       Some "https://accounts.example.org/.well-known/openid-configuration";
                     metadata := None;
                     clientId := Some "broker";
                     clientSecret := Some "s3cret" |} |}.

(** A SAML connection whose metadata lists no single sign-on endpoint. *)
Definition bare : SAMLSSORecord :=
  {| saml_clientID := "client-bare";
     idpMetadata := {| sso := {| redirectUrl := None; postUrl := None |} |};
     forceAuthn := Js.Undefined;
     identifierFormat := None |}.

Definition samlOf (c : SSORecord) : SAMLSSORecord :=
  match c with
  | SAMLRecord r => r
  | OIDCRecord _ => bare
  end.

(** The store of connections: tenant acme, product crm has two connections,
    entity id idp-1 has one, entity id idp-2 has two. *)
Definition connections : Storable :=
  {| getByIndex name value :=
       match name with
       | TenantProduct =>
           if String.eqb value "acme:crm"
           then Ok {| data := [okta; azure]; pageToken := None |}
           else Ok {| data := []; pageToken := None |}
       | EntityID =>
           if String.eqb value "idp-1"
           then Ok {| data := [google]; pageToken := None |}
           else if String.eqb value "idp-2"
           then Ok {| data := [azure; google]; pageToken := None |}
           else Ok {| data := []; pageToken := None |}
       end;
     put _ _ := Err (Thrown "Error" "read-only store") |}.

Definition sessionStore : Storable :=
  {| getByIndex _ _ := Ok {| data := []; pageToken := None |};
     put _ _ := Ok () |}.

Definition options (oidcPath : option string) : JacksonOption :=
  {| externalUrl := "https://sso.example.com";
     samlPath := "/api/oauth/saml";
     samlAudience := Some "https://saml.example.com";
     idpDiscoveryPath := Some "/idp/select";
     oidcPath := oidcPath |}.

Definition handler : SSOHandler :=
  {| connection := connections; session := sessionStore;
     opts := options (Some "/api/oauth/oidc") |}.

Definition handlerWithoutOidcPath : SSOHandler :=
  {| connection := connections; session := sessionStore; opts := options None |}.

Definition renderValue (v : Js.Value) : string :=
  match v with
  | Js.Str s => s
  | Js.Undefined => "undefined"
  | Js.Null => "null"
  | Js.Bool true => "true"
  | Js.Bool false => "false"
  | Js.Num _ => "0"
  end.

Fixpoint renderFields (fields : list (string * Js.Value)) : string :=
  match fields with
  | [] => ""
  | (name, value) :: r =>
      "<input type='hidden' name='" +:+ name +:+ "' value='" +:+ renderValue value
        +:+ "'/>" +:+ renderFields r
  end.

(** The imported libraries; [certificate] is the answer of the certificate
    provider. *)
Definition imports (certificate : Res Certificate) : Imports :=
  {| getDefaultCertificate := certificate;
     saml_request options :=
       Ok {| request_id := "_4f2a";
             request := "<samlp:AuthnRequest ID='_4f2a'/>" |};
     saml_createPostForm action fields :=
       "<form method='post' action='" +:+ renderValue action +:+ "'>"
         +:+ renderFields fields +:+ "</form>";
     deflateRaw input := Ok (Encoding.bytesOf input);
     randomSource draw i := Byte.x5a;
     keyFromParts a b := a +:+ ":" +:+ b;
     relayStatePrefix := "boxyhq_jackson_";
     lib_createSAMLResponse options := Ok "<samlp:Response/>";
     redirect_success url params :=
       match url with
       | Some u => Ok (u +:+ "?" +:+ Js.searchParams params)
       | None => Err (Thrown "TypeError" "Invalid URL")
       end;
     oidcIssuerInstance url metadata := Ok {| issuer_metadata := ∅ |};
     issuer_Client issuer metadata :=
       Ok {| client_issuer := issuer; client_metadata := metadata |};
     client_authorizationUrl client parameters :=
       Ok ("https://accounts.example.org/authorize?state=" +:+ state parameters);
     generators_codeVerifier draw := "verifier";
     generators_codeChallenge verifier := "challenge";
     generators_nonce draw := "nonce";
     URL_href s := Ok s |}.

Definition env : Imports :=
  imports (Ok {| publicKey := "PUBLIC KEY"; privateKey := "PRIVATE KEY" |}).

Definition envWithoutCertificate : Imports :=
  imports (Err (Thrown "Error" "No certificate found")).

Definition initial : State := {| sessions := ∅; draws := 0; trace := [] |}.

Definition profile : SAMLProfile :=
  {| profile_audience := "https://saml.example.com";
     profile_claims := {["email" := Js.Str "jane@example.com"]};
     profile_issuer := "https://okta.example.com";
     profile_sessionIndex := "_s1" |}.

(** A session recovered for an IdP-initiated federation flow. *)
Definition federated : Session :=
  {| id := "_4f2a";
     requested :=
       {["entityId" := Js.Str "https://app.example.com/sp";
         "acsUrl" := Js.Str "https://app.example.com/acs";
         "id" := Js.Str "_req7";
         "relayState" := Js.Str "app-state"]};
     samlFederated := true;
     oidcCodeVerifier := None;
     oidcNonce := None |}.

Definition sessionId : string := "5a5a5a5a5a5a5a5a5a5a5a5a5a5a5a5a".

Definition resolveParams (flow : AuthFlow) (original : Js.Object)
    (tenant product entityId hint : option string) : ResolveParams :=
  {| authFlow := flow; originalParams := original; tenant := tenant;
     product := product; entityId := entityId; idp_hint := hint;
     samlFedAppId := None |}.

End Demo.

(** ** The deployment with failing collaborators *)

Module Faulty.

Definition refused : Error := Thrown "Error" "connection refused".

(** A store that is down. *)
Definition storeDown : Storable :=
  {| getByIndex _ _ := Err refused; put _ _ := Err refused |}.

Definition handlerConnectionsDown : SSOHandler :=
  {| connection := storeDown; session := Demo.sessionStore;
     opts := Demo.options (Some "/api/oauth/oidc") |}.

Definition handlerSessionsDown : SSOHandler :=
  {| connection := Demo.connections; session := storeDown;
     opts := Demo.options (Some "/api/oauth/oidc") |}.

(** The libraries of [Demo.env], with the answers of [saml.request],
    [deflateRaw], [oidcIssuerInstance] and the URL constructor, and the
    random source, as given. *)
Definition imports (samlRequest : Res AuthnRequest) (deflated : Res (list Byte.byte))
    (issuer : Res Issuer) (href : string → Res string)
    (random : nat → nat → Byte.byte) : Imports :=
  {| getDefaultCertificate := getDefaultCertificate Demo.env;
     saml_request _ := samlRequest;
     saml_createPostForm := saml_createPostForm Demo.env;
     deflateRaw _ := deflated;
     randomSource := random;
     keyFromParts := keyFromParts Demo.env;
     relayStatePrefix := relayStatePrefix Demo.env;
     lib_createSAMLResponse := lib_createSAMLResponse Demo.env;
     redirect_success := redirect_success Demo.env;
     oidcIssuerInstance _ _ := issuer;
     issuer_Client := issuer_Client Demo.env;
     client_authorizationUrl := client_authorizationUrl Demo.env;
     generators_codeVerifier := generators_codeVerifier Demo.env;
     generators_codeChallenge := generators_codeChallenge Demo.env;
     generators_nonce := generators_nonce Demo.env;
     URL_href := href |}.

Definition authnRequest : AuthnRequest :=
  {| request_id := "_4f2a"; request := "<samlp:AuthnRequest ID='_4f2a'/>" |}.

Definition issuer : Issuer := {| issuer_metadata := ∅ |}.

Definition envUrlInvalid : Imports :=
  imports (Ok authnRequest) (Ok []) (Ok issuer)
    (λ _, Err (Thrown "TypeError" "Invalid URL")) (λ _ _, Byte.x5a).

Definition envRequestFails : Imports :=
  imports (Err (Thrown "Error" "no signing key")) (Ok []) (Ok issuer) Ok
    (λ _ _, Byte.x5a).

Definition envDeflateFails : Imports :=
  imports (Ok authnRequest) (Err (Thrown "Error" "zlib")) (Ok issuer) Ok
    (λ _ _, Byte.x5a).

Definition envIssuerFails : Imports :=
  imports (Ok authnRequest) (Ok []) (Err (Thrown "OPError" "issuer unreachable")) Ok
    (λ _ _, Byte.x5a).

(** A random source whose first draw is all 0x5a and whose later draws are
    all 0xa5. *)
Definition envFreshDraws : Imports :=
  imports (Ok authnRequest) (Ok []) (Ok issuer) Ok
    (λ draw _, match draw with O => Byte.x5a | S _ => Byte.xa5 end).

End Faulty.

(** ** The shape of identifiers *)

(** The characters [toString('hex')] writes. *)
Definition isLowerHexDigit (c : ascii) : bool :=
  let n := N_of_ascii c in
  ((48 <=? n) && (n <=? 57)) || ((97 <=? n) && (n <=? 102)).

(** [[...s].every(p)]. *)
Fixpoint allChars (p : ascii → bool) (s : string) : bool :=
  match s with
  | EmptyString => true
  | String c r => p c && allChars p r
  end.

(** The 16 bytes the [n]-th draw of the random source gives. *)
Definition drawnBytes (env : Imports) (n : nat) : list Byte.byte :=
  randomSource env n <$> seq 0 16.

(** * Properties *)

(** ** Encodings *)

Example toHex_sample :
  Encoding.toHex [Byte.x00; Byte.x0f; Byte.xa5; Byte.xff] = "000fa5ff".
Proof. reflexivity. Qed.

Example toBase64_sample :
  Encoding.toBase64 (Encoding.bytesOf "Man") = "TWFu"
  ∧ Encoding.toBase64 (Encoding.bytesOf "Ma") = "TWE="
  ∧ Encoding.toBase64 (Encoding.bytesOf "M") = "TQ=="
  ∧ Encoding.toBase64 (Encoding.bytesOf "<samlp:AuthnRequest/>")
    = "PHNhbWxwOkF1dGhuUmVxdWVzdC8+".
Proof. repeat split; reflexivity. Qed.

Example formEncode_sample :
  Encoding.formEncode "a b&c=d/e~*" = "a+b%26c%3Dd%2Fe%7E*".
Proof. reflexivity. Qed.

Module EncodingFacts.

Import Encoding.

Lemma toHex_length l : String.length (toHex l) = (2 * length l)%nat.
Proof. induction l as [|b l IH]; simpl; [done|]. rewrite IH. lia. Qed.

Lemma prefix_app a b : String.prefix a (a +:+ b) = true.
Proof.
  induction a as [|c a IH]; simpl; [by destruct b|]. by destruct (ascii_dec c c).
Qed.

Lemma includes_unfold needle haystack :
  includes needle haystack
  = String.prefix needle haystack
    || match haystack with
       | EmptyString => false
       | String _ r => includes needle r
       end.
Proof. by destruct haystack. Qed.

Lemma includes_app_l needle b : includes needle (needle +:+ b) = true.
Proof. by rewrite includes_unfold, prefix_app. Qed.

Lemma includes_app_r needle a h :
  includes needle h = true → includes needle (a +:+ h) = true.
Proof.
  intros H. induction a as [|c a IH]; [done|].
  rewrite includes_unfold. simpl. by rewrite IH, orb_true_r.
Qed.

(** A text that occurs between two others is included in the whole. *)
Lemma includes_middle needle a b : includes needle (a +:+ needle +:+ b) = true.
Proof. apply includes_app_r, includes_app_l. Qed.

End EncodingFacts.

(** ** Objects: reading after writing *)

Module JsFacts.

Import Js.

Lemma get_cons k k' v' o :
  get k ((k', v') :: o) = if String.eqb k k' then Some v' else get k o.
Proof. unfold get. simpl. by destruct (String.eqb k k'). Qed.

Lemma has_cons k k' v' o :
  has k ((k', v') :: o) = String.eqb k k' || has k o.
Proof. reflexivity. Qed.

Lemma has_get k o :
  has k o = match get k o with Some _ => true | None => false end.
Proof.
  induction o as [|[k' v'] o IH]; [done|].
  rewrite has_cons, get_cons, IH. by destruct (String.eqb k k').
Qed.

Lemma get_replace_eq k v o : has k o = true → get k (replace k v o) = Some v.
Proof.
  induction o as [|[k' v'] o IH]; [done|].
  rewrite has_cons. simpl. destruct (String.eqb k k') eqn:E; simpl; intros H.
  - by rewrite get_cons, E.
  - by rewrite get_cons, E, IH.
Qed.

Lemma get_replace_ne k k' v o : k ≠ k' → get k' (replace k v o) = get k' o.
Proof.
  intros Hne. induction o as [|[k0 v0] o IH]; [done|].
  simpl. destruct (String.eqb_spec k k0) as [->|Hk].
  - rewrite !get_cons. destruct (String.eqb_spec k' k0); congruence.
  - by rewrite !get_cons, IH.
Qed.

Lemma get_insertIndex_eq n k v o :
  has k o = false → get k (insertIndex n k v o) = Some v.
Proof.
  induction o as [|[k' v'] o IH]; simpl.
  - intros _. by rewrite get_cons, String.eqb_refl.
  - intros [E H]%orb_false_elim.
    destruct (arrayIndex k') as [n'|]; [destruct (n' <? n)|];
      rewrite get_cons, ?E, ?String.eqb_refl; auto.
Qed.

Lemma get_insertIndex_ne n k k' v o :
  k ≠ k' → get k' (insertIndex n k v o) = get k' o.
Proof.
  intros Hne. induction o as [|[k0 v0] o IH]; simpl.
  - rewrite get_cons. by destruct (String.eqb_spec k' k).
  - destruct (arrayIndex k0) as [n'|]; [destruct (n' <? n)|].
    + by rewrite !get_cons, IH.
    + rewrite (get_cons k' k). by destruct (String.eqb_spec k' k).
    + rewrite (get_cons k' k). by destruct (String.eqb_spec k' k).
Qed.

Lemma get_snoc_eq k v o : has k o = false → get k (o ++ [(k, v)]) = Some v.
Proof.
  induction o as [|[k' v'] o IH]; simpl.
  - intros _. by rewrite get_cons, String.eqb_refl.
  - intros [E H]%orb_false_elim. by rewrite get_cons, E, IH.
Qed.

Lemma get_snoc_ne k k' v o : k ≠ k' → get k' (o ++ [(k, v)]) = get k' o.
Proof.
  intros Hne. induction o as [|[k0 v0] o IH]; simpl.
  - rewrite get_cons. by destruct (String.eqb_spec k' k).
  - by rewrite !get_cons, IH.
Qed.

(** A property just set reads back. *)
Lemma get_set_eq k v o : get k (set k v o) = Some v.
Proof.
  unfold set. destruct (has k o) eqn:E.
  - by apply get_replace_eq.
  - destruct (arrayIndex k); [by apply get_insertIndex_eq | by apply get_snoc_eq].
Qed.

(** Setting a property leaves the others as they were. *)
Lemma get_set_ne k k' v o : k ≠ k' → get k' (set k v o) = get k' o.
Proof.
  intros Hne. unfold set. destruct (has k o).
  - by apply get_replace_ne.
  - destruct (arrayIndex k); [by apply get_insertIndex_ne | by apply get_snoc_ne].
Qed.

Lemma has_set k k' v o : has k' (set k v o) = String.eqb k' k || has k' o.
Proof.
  rewrite !has_get. destruct (String.eqb_spec k' k) as [->|Hne].
  - by rewrite get_set_eq.
  - by rewrite get_set_ne.
Qed.

(** Spreading [src] over [o] keeps the properties of [o] that [src] lacks. *)
Lemma get_assign_absent k o src :
  has k src = false → get k (assign o src) = get k o.
Proof.
  unfold assign. revert o. induction src as [|[k' v'] src IH]; intros o; [done|].
  rewrite has_cons. intros [E H]%orb_false_elim. simpl.
  rewrite IH by done. apply get_set_ne.
  intros ->. by rewrite String.eqb_refl in E.
Qed.

(** Spreading [src] over [o] gives every property of [src] its value in
    [src]. *)
Lemma get_assign_present k v o src :
  NoDup src.*1 → (k, v) ∈ src → get k (assign o src) = Some v.
Proof.
  unfold assign. revert o. induction src as [|[k' v'] src IH]; intros o Hnd Hin.
  - by apply elem_of_nil in Hin.
  - apply NoDup_cons in Hnd as [Hk' Hnd]. simpl in *.
    apply elem_of_cons in Hin as [[= -> ->]|Hin].
    + change (get k' (assign (set k' v' o) src) = Some v').
      rewrite get_assign_absent; [apply get_set_eq|].
      rewrite has_get. destruct (get k' src) as [w|] eqn:G; [|done].
      exfalso. apply Hk'. unfold get in G.
      destruct (find _ src) as [[k0 v0]|] eqn:F; [|done].
      apply find_some in F as [Hin F]. simpl in F.
      apply String.eqb_eq in F as ->.
      apply list_elem_of_fmap. exists (k0, v0). split; [done|].
      by apply list_elem_of_In.
    + by apply IH.
Qed.

Lemma has_assign k o src : has k (assign o src) = has k o || has k src.
Proof.
  unfold assign. revert o. induction src as [|[k' v'] src IH]; intros o.
  - simpl. by rewrite orb_false_r.
  - rewrite has_cons. simpl. rewrite IH, has_set.
    by destruct (String.eqb k k'), (has k o).
Qed.

Lemma string_app_assoc (a b c : string) : (a +:+ b) +:+ c = a +:+ b +:+ c.
Proof. induction a as [|x a IH]; [done|]. exact (f_equal (String x) IH). Qed.

Lemma string_app_nil_r (a : string) : a +:+ "" = a.
Proof. induction a as [|x a IH]; [done|]. exact (f_equal (String x) IH). Qed.

Lemma joinAmp_elem x l : x ∈ l → ∃ a b, joinAmp l = a +:+ x +:+ b.
Proof.
  induction l as [|y l IH]; intros Hin; [by apply elem_of_nil in Hin|].
  apply elem_of_cons in Hin as [-> | Hin].
  - destruct l as [|z l].
    + exists "", "". simpl. by rewrite string_app_nil_r.
    + by exists "", ("&" +:+ joinAmp (z :: l)).
  - destruct (IH Hin) as (a & b & E). destruct l as [|z l].
    + by apply elem_of_nil in Hin.
    + exists (y +:+ "&" +:+ a), b.
      change (joinAmp (y :: z :: l)) with (y +:+ "&" +:+ joinAmp (z :: l)).
      by rewrite E, !string_app_assoc.
Qed.

(** A property of the object shows in the query string, encoded. *)
Lemma searchParams_includes k v o :
  (k, v) ∈ o →
  Encoding.includes (Encoding.formEncode k +:+ "=" +:+ Encoding.formEncode v)
    (searchParams o) = true.
Proof.
  intros Hin. unfold searchParams.
  destruct (joinAmp_elem
              (Encoding.formEncode k +:+ "=" +:+ Encoding.formEncode v)
              ((λ kv, Encoding.formEncode kv.1 +:+ "=" +:+ Encoding.formEncode kv.2)
                 <$> o)) as (a & b & ->).
  - apply list_elem_of_fmap. by exists (k, v).
  - apply EncodingFacts.includes_middle.
Qed.

Lemma get_elem k v o : get k o = Some v → (k, v) ∈ o.
Proof.
  unfold get. destruct (find _ o) as [[k' v']|] eqn:F; [|done].
  apply find_some in F as [Hin E]. apply String.eqb_eq in E. simpl in *.
  intros [= <-]. subst. by apply list_elem_of_In.
Qed.

Lemma has_keys k o : has k o = true ↔ k ∈ o.*1.
Proof.
  induction o as [|[k' v'] o IH]; simpl.
  - split; [done | by intros ?%elem_of_nil].
  - rewrite orb_true_iff, IH, elem_of_cons, String.eqb_eq. done.
Qed.

Lemma has_keys_false k o : has k o = false ↔ k ∉ o.*1.
Proof. rewrite <- has_keys. by destruct (has k o). Qed.

Lemma keys_replace k v o : (replace k v o).*1 = o.*1.
Proof.
  induction o as [|[k' v'] o IH]; [done|]. simpl.
  destruct (String.eqb k k'); simpl; [done | f_equal; exact IH].
Qed.

Lemma keys_insertIndex n k v o : (insertIndex n k v o).*1 ≡ₚ k :: o.*1.
Proof.
  induction o as [|[k' v'] o IH]; [done|]. simpl.
  destruct (arrayIndex k') as [n'|]; [destruct (n' <? n)|]; simpl; [|done|done].
  rewrite IH. apply Permutation_swap.
Qed.

(** Setting a property never makes a key occur twice. *)
Lemma NoDup_set k v o : NoDup o.*1 → NoDup (set k v o).*1.
Proof.
  intros Hnd. unfold set. destruct (has k o) eqn:E.
  - by rewrite keys_replace.
  - apply has_keys_false in E. destruct (arrayIndex k).
    + rewrite keys_insertIndex. by apply NoDup_cons.
    + rewrite fmap_app. simpl. apply NoDup_app. split; [done|]. split.
      * intros x Hx ->%list_elem_of_singleton. done.
      * apply NoDup_singleton.
Qed.

Lemma NoDup_assign o src : NoDup o.*1 → NoDup (assign o src).*1.
Proof.
  unfold assign. revert o. induction src as [|[k v] src IH]; intros o Hnd; [done|].
  simpl. by apply IH, NoDup_set.
Qed.

(** In an object, a property is found under its key. *)
Lemma elem_get k v o : NoDup o.*1 → (k, v) ∈ o → get k o = Some v.
Proof.
  induction o as [|[k' v'] o IH]; intros Hnd Hin; [by apply elem_of_nil in Hin|].
  apply NoDup_cons in Hnd as [Hk' Hnd]. rewrite get_cons.
  apply elem_of_cons in Hin as [[= -> ->] | Hin].
  - by rewrite String.eqb_refl.
  - destruct (String.eqb_spec k k') as [-> | _]; [|by apply IH].
    exfalso. apply Hk'. apply list_elem_of_fmap. by exists (k', v).
Qed.

(** A parameter of the query object shows in the URL built from it. *)
Lemma url_includes_parameter url k v o :
  get k o = Some v →
  Encoding.includes (Encoding.formEncode k +:+ "=" +:+ Encoding.formEncode v)
    (url +:+ "?" +:+ searchParams o) = true.
Proof.
  intros H%get_elem.
  apply EncodingFacts.includes_app_r, (EncodingFacts.includes_app_r _ "?").
  by apply searchParams_includes.
Qed.

End JsFacts.

(** ** The log of calls only grows *)

Create HintDb grows.

Lemma grows_ret {A} (a : A) : grows (ret a).
Proof. intros s. exists []. by rewrite app_nil_r. Qed.

Lemma grows_throw {A} e : grows (throw (A := A) e).
Proof. intros s. exists []. by rewrite app_nil_r. Qed.

Lemma grows_lift {A} (r : Res A) : grows (lift r).
Proof. intros s. exists []. by rewrite app_nil_r. Qed.

Lemma grows_call {A} ev (r : Res A) : grows (call ev r).
Proof. intros s. by exists [ev]. Qed.

Lemma grows_bind {A B} (m : M A) (k : A → M B) :
  grows m → (∀ a, grows (k a)) → grows (bind m k).
Proof.
  intros Hm Hk s. unfold bind. destruct (Hm s) as [l1 H1].
  destruct (m s) as [[a|e] s1]; simpl in *.
  - destruct (Hk a s1) as [l2 H2]. exists (l1 ++ l2). by rewrite H2, H1, app_assoc.
  - by exists l1.
Qed.

Lemma grows_tryCatch {A} (m : M A) (h : Error → M A) :
  grows m → (∀ e, grows (h e)) → grows (tryCatch m h).
Proof.
  intros Hm Hh s. unfold tryCatch. destruct (Hm s) as [l1 H1].
  destruct (m s) as [[a|e] s1]; simpl in *.
  - by exists l1.
  - destruct (Hh e s1) as [l2 H2]. exists (l1 ++ l2). by rewrite H2, H1, app_assoc.
Qed.

Lemma grows_randomBytes env size : grows (randomBytes env size).
Proof. intros s. by eexists. Qed.

Lemma grows_codeVerifier env : grows (codeVerifier env).
Proof. intros s. by eexists. Qed.

Lemma grows_generateNonce env : grows (generateNonce env).
Proof. intros s. by eexists. Qed.

Lemma grows_sessionPut this key value : grows (sessionPut this key value).
Proof. intros s. unfold sessionPut. destruct (put _ _ _); by eexists. Qed.

#[export] Hint Resolve grows_ret grows_throw grows_lift grows_call grows_bind
  grows_tryCatch grows_randomBytes grows_codeVerifier grows_generateNonce
  grows_sessionPut : grows.

Lemma grows_createSession env this requestId context verifier nonce :
  grows (createSession env this requestId context verifier nonce).
Proof. unfold createSession. eauto with grows. Qed.

#[export] Hint Resolve grows_createSession : grows.

(** A guarded computation that starts with a call has that call next in the
    log, whatever follows. *)
Lemma first_call {A B} ev (r : Res A) (k : A → M B) (h : Error → M B) s :
  (∀ a, grows (k a)) → (∀ e, grows (h e)) →
  ∃ later, trace (tryCatch (bind (call ev r) k) h s).2 = trace s ++ ev :: later.
Proof.
  intros Hk Hh.
  destruct (grows_tryCatch (bind (lift r) k) h) with (s := record ev s) as [later H];
    [eauto with grows | done |].
  exists later. revert H. unfold tryCatch, bind, call, lift, record. cbn [trace].
  rewrite <- app_assoc. by destruct r.
Qed.

(** ** Resolving a connection *)

Section ResolveConnection.

Context (env : Imports) (this : SSOHandler).

(** The three ways the lookups can go. *)
Lemma lookupConnections_none params s :
  Js.truthy (tenant params) && Js.truthy (product params) = false →
  Js.truthy (entityId params) = false →
  lookupConnections env this params s = (Ok None, s).
Proof.
  intros Htp He. unfold lookupConnections, bind. by rewrite Htp, He.
Qed.

Lemma lookupConnections_tenant_product params s r :
  Js.truthy (tenant params) && Js.truthy (product params) = true →
  Js.truthy (entityId params) = false →
  getByIndex (connection this) TenantProduct
    (keyFromParts env (Js.toString (tenant params)) (Js.toString (product params)))
  = Ok r →
  lookupConnections env this params s
  = (Ok (Some (data r)),
     record (GetByIndex TenantProduct
               (keyFromParts env (Js.toString (tenant params))
                  (Js.toString (product params)))) s).
Proof.
  intros Htp He Hr. unfold lookupConnections, bind, call. by rewrite Htp, He, Hr.
Qed.

Lemma lookupConnections_entity params s r :
  Js.truthy (tenant params) && Js.truthy (product params) = false →
  Js.truthy (entityId params) = true →
  getByIndex (connection this) EntityID (Js.toString (entityId params)) = Ok r →
  lookupConnections env this params s
  = (Ok (Some (data r)),
     record (GetByIndex EntityID (Js.toString (entityId params))) s).
Proof.
  intros Htp He Hr. unfold lookupConnections, bind, call, ret. by rewrite Htp, He, Hr.
Qed.

Lemma resolveConnection_after_lookup params s connections s' :
  lookupConnections env this params s = (Ok connections, s') →
  resolveConnection env this params s = selectConnection env this params connections s'.
Proof. intros H. unfold resolveConnection, bind. by rewrite H. Qed.

(** C1. Whenever the lookups of [resolveConnection] end with no list of
    connections at all or with an empty list, whichever index produced it,
    the call rejects with the 404 error 'No SSO connection found.'. *)
Theorem resolveConnection_empty_not_found params s connections s' :
  lookupConnections env this params s = (Ok connections, s') →
  connections = None ∨ connections = Some [] →
  resolveConnection env this params s
  = (Err (JacksonError "No SSO connection found." 404), s').
Proof.
  intros Hlookup Hempty.
  rewrite (resolveConnection_after_lookup _ _ _ _ Hlookup).
  by destruct Hempty as [-> | ->].
Qed.

(** The same, lookup by lookup: no lookup applies, the tenant/product index
    has nothing, the entity-id index has nothing. *)
Lemma resolveConnection_without_lookup params s :
  Js.truthy (tenant params) && Js.truthy (product params) = false →
  Js.truthy (entityId params) = false →
  resolveConnection env this params s
  = (Err (JacksonError "No SSO connection found." 404), s).
Proof.
  intros Htp He.
  by rewrite (resolveConnection_after_lookup _ _ _ _
                (lookupConnections_none _ _ Htp He)).
Qed.

Lemma resolveConnection_empty_tenant_product params s r :
  Js.truthy (tenant params) && Js.truthy (product params) = true →
  Js.truthy (entityId params) = false →
  getByIndex (connection this) TenantProduct
    (keyFromParts env (Js.toString (tenant params)) (Js.toString (product params)))
  = Ok r →
  data r = [] →
  (resolveConnection env this params s).1
  = Err (JacksonError "No SSO connection found." 404).
Proof.
  intros Htp He Hr Hdata.
  rewrite (resolveConnection_after_lookup _ _ _ _
             (lookupConnections_tenant_product _ _ _ Htp He Hr)).
  by rewrite Hdata.
Qed.

Lemma resolveConnection_empty_entity params s r :
  Js.truthy (tenant params) && Js.truthy (product params) = false →
  Js.truthy (entityId params) = true →
  getByIndex (connection this) EntityID (Js.toString (entityId params)) = Ok r →
  data r = [] →
  (resolveConnection env this params s).1
  = Err (JacksonError "No SSO connection found." 404).
Proof.
  intros Htp He Hr Hdata.
  rewrite (resolveConnection_after_lookup _ _ _ _
             (lookupConnections_entity _ _ _ Htp He Hr)).
  by rewrite Hdata.
Qed.

(** C2. With a tenant, a product and an entity id all supplied (non-empty),
    once the tenant/product query has been answered, its answer [tp] plays
    no part: the lookups yield the list of the entity-id index, and every
    later step of [resolveConnection] runs on that list. *)
Theorem entity_lookup_supersedes params s tp en :
  Js.truthy (tenant params) = true →
  Js.truthy (product params) = true →
  Js.truthy (entityId params) = true →
  getByIndex (connection this) TenantProduct
    (keyFromParts env (Js.toString (tenant params)) (Js.toString (product params)))
  = Ok tp →
  getByIndex (connection this) EntityID (Js.toString (entityId params)) = Ok en →
  let s' :=
    record (GetByIndex EntityID (Js.toString (entityId params)))
      (record (GetByIndex TenantProduct
                 (keyFromParts env (Js.toString (tenant params))
                    (Js.toString (product params)))) s) in
  lookupConnections env this params s = (Ok (Some (data en)), s')
  ∧ resolveConnection env this params s
    = selectConnection env this params (Some (data en)) s'.
Proof.
  intros Ht Hp He Htp Hen s'.
  assert (lookupConnections env this params s = (Ok (Some (data en)), s')) as H.
  { unfold lookupConnections, bind, call, ret. by rewrite Ht, Hp, He, Htp, Hen. }
  split; [done|]. by apply resolveConnection_after_lookup.
Qed.

(** A tenant/product query that fails ends the call. *)
Lemma lookupConnections_tenant_product_failure params s e :
  Js.truthy (tenant params) && Js.truthy (product params) = true →
  getByIndex (connection this) TenantProduct
    (keyFromParts env (Js.toString (tenant params)) (Js.toString (product params)))
  = Err e →
  lookupConnections env this params s
  = (Err e,
     record (GetByIndex TenantProduct
               (keyFromParts env (Js.toString (tenant params))
                  (Js.toString (product params)))) s).
Proof.
  intros Htp Hr. unfold lookupConnections, bind, call. by rewrite Htp, Hr.
Qed.

(** [selectConnection] reads the options of the handler and nothing else of
    it. *)
Lemma selectConnection_opts that params connections s :
  opts that = opts this →
  selectConnection env that params connections s
  = selectConnection env this params connections s.
Proof. intros H. unfold selectConnection. by rewrite H. Qed.

(** C3. With a hint supplied (non-empty), the call resolves to the first
    connection whose clientID is the hint, and rejects with the same 404
    error when no connection found has that clientID, however many
    connections were found. *)
Theorem idp_hint_selects params s connections s' hint :
  lookupConnections env this params s = (Ok (Some connections), s') →
  idp_hint params = Some hint →
  hint ≠ "" →
  (∀ before c after,
     connections = before ++ c :: after →
     (∀ c', c' ∈ before → clientID c' ≠ hint) →
     clientID c = hint →
     resolveConnection env this params s = (Ok (Connection c), s'))
  ∧ ((∀ c, c ∈ connections → clientID c ≠ hint) →
     resolveConnection env this params s
     = (Err (JacksonError "No SSO connection found." 404), s')).
Proof.
  intros Hlookup Hhint Hne.
  rewrite (resolveConnection_after_lookup _ _ _ _ Hlookup).
  assert (Js.truthy (idp_hint params) = true) as Htruthy.
  { rewrite Hhint. simpl. by destruct (String.eqb_spec hint ""). }
  split.
  - intros before c after -> Hbefore Hc.
    assert (find (λ c0, String.eqb (clientID c0) hint) (before ++ c :: after) = Some c)
      as Hfind.
    { clear Hlookup. induction before as [|b before IH]; simpl.
      - by rewrite Hc, String.eqb_refl.
      - destruct (String.eqb_spec (clientID b) hint) as [E|_].
        + exfalso. apply (Hbefore b); [apply list_elem_of_here | done].
        + apply IH. intros c' Hc'. apply Hbefore. by apply list_elem_of_further. }
    unfold selectConnection. rewrite Htruthy, Hhint.
    change (Js.toString (Some hint)) with hint.
    revert Hfind. destruct (before ++ c :: after) eqn:E; [by destruct before|].
    by intros ->.
  - intros Hnone. unfold selectConnection.
    destruct connections as [|c0 rest]; [done|].
    rewrite Htruthy, Hhint. change (Js.toString (Some hint)) with hint.
    destruct (find _ (c0 :: rest)) as [c|] eqn:Hfind; [|done].
    apply find_some in Hfind as [Hin Heq].
    apply String.eqb_eq in Heq. exfalso.
    apply (Hnone c); [by apply list_elem_of_In | done].
Qed.

Lemma literal_discoveryParameters params :
  Js.literal (discoveryParameters params) = discoveryParameters params.
Proof. reflexivity. Qed.

(** C6, as the code has it. With more than one connection found, no hint,
    flow oauth or saml, tenant [t] and product [p] supplied (non-empty) and
    a discovery URL that parses to [url], the call resolves to the redirect
    [url?query]. In the query every parameter name occurs once; every
    original parameter is there with its original value; tenant=[t],
    product=[p], authFlow=sp-initiated and samlFedAppId (empty by default)
    are there unless an original parameter has the same name, whose value
    then is the one carried; and nothing else is there. *)
Theorem sp_initiated_discovery_redirect params s connections s' url t p :
  lookupConnections env this params s = (Ok (Some connections), s') →
  (1 < length connections)%nat →
  Js.truthy (idp_hint params) = false →
  authFlow params = oauth ∨ authFlow params = saml →
  tenant params = Some t →
  t ≠ "" →
  product params = Some p →
  p ≠ "" →
  URL_href env (externalUrl (opts this) +:+ Js.toString (idpDiscoveryPath (opts this)))
  = Ok url →
  NoDup (originalParams params).*1 →
  ∃ query : Js.Object,
    resolveConnection env this params s
    = (Ok (RedirectUrl (url +:+ "?" +:+ Js.searchParams query)), s')
    ∧ NoDup query.*1
    ∧ (∀ k v, (k, v) ∈ originalParams params → (k, v) ∈ query)
    ∧ (∀ k v,
         (k, v) ∈ [("tenant", t); ("product", p); ("authFlow", "sp-initiated");
                   ("samlFedAppId", default "" (samlFedAppId params))] →
         Js.has k (originalParams params) = false →
         (k, v) ∈ query)
    ∧ (∀ k v,
         (k, v) ∈ query →
         (k, v) ∈ originalParams params
         ∨ (Js.has k (originalParams params) = false
            ∧ (k, v) ∈ [("tenant", t); ("product", p); ("authFlow", "sp-initiated");
                        ("samlFedAppId", default "" (samlFedAppId params))])).
Proof.
  intros Hlookup Hlen Hhint Hflow Ht Hnt Hp Hnp Hurl Hnd.
  assert (Js.truthy (tenant params) = true) as Htt.
  { rewrite Ht. simpl. by destruct (String.eqb_spec t ""). }
  assert (Js.truthy (product params) = true) as Htp.
  { rewrite Hp. simpl. by destruct (String.eqb_spec p ""). }
  assert (Js.literal (discoveryParameters params)
          = [("tenant", t); ("product", p); ("authFlow", "sp-initiated");
             ("samlFedAppId", default "" (samlFedAppId params))]) as Hown.
  { rewrite literal_discoveryParameters. unfold discoveryParameters.
    by rewrite Ht, Hp. }
  assert (NoDup (Js.assign (Js.literal (discoveryParameters params))
                   (originalParams params)).*1) as Hquery.
  { apply JsFacts.NoDup_assign. rewrite Hown. simpl.
    repeat (apply NoDup_cons; split;
            [rewrite ?elem_of_cons, elem_of_nil; intuition discriminate|]).
    apply NoDup_nil_2. }
  exists (Js.assign (Js.literal (discoveryParameters params)) (originalParams params)).
  split; [|split; [done|split; [|split]]].
  - rewrite (resolveConnection_after_lookup _ _ _ _ Hlookup).
    unfold selectConnection.
    destruct connections as [|c0 [|c1 rest]]; simpl in Hlen; [lia | lia |].
    rewrite Hhint. change (1 <? length (c0 :: c1 :: rest))%nat with true.
    unfold bind, lift. rewrite Hurl, Htt, Htp.
    by destruct Hflow as [-> | ->].
  - intros k v Hin. by apply JsFacts.get_elem, JsFacts.get_assign_present.
  - intros k v Hin Habsent. apply JsFacts.get_elem.
    rewrite JsFacts.get_assign_absent, Hown by done.
    repeat (apply elem_of_cons in Hin as [[= -> ->] | Hin]; [reflexivity|]).
    by apply elem_of_nil in Hin.
  - intros k v Hin. apply (JsFacts.elem_get _ _ _ Hquery) in Hin.
    destruct (Js.has k (originalParams params)) eqn:Hhas.
    + left. rewrite JsFacts.has_get in Hhas.
      destruct (Js.get k (originalParams params)) as [w|] eqn:Hw; [|done].
      apply JsFacts.get_elem in Hw.
      rewrite (JsFacts.get_assign_present _ _ _ _ Hnd Hw) in Hin. congruence.
    + right. split; [done|].
      rewrite JsFacts.get_assign_absent, Hown in Hin by done.
      by apply JsFacts.get_elem.
Qed.

End ResolveConnection.

(** Two handlers that differ in what the tenant/product index holds resolve
    alike when an entity id is supplied too. *)
Lemma entity_lookup_ignores_tenant_product env this that params s tp tp' en :
  opts that = opts this →
  Js.truthy (tenant params) = true →
  Js.truthy (product params) = true →
  Js.truthy (entityId params) = true →
  getByIndex (connection this) TenantProduct
    (keyFromParts env (Js.toString (tenant params)) (Js.toString (product params)))
  = Ok tp →
  getByIndex (connection that) TenantProduct
    (keyFromParts env (Js.toString (tenant params)) (Js.toString (product params)))
  = Ok tp' →
  getByIndex (connection this) EntityID (Js.toString (entityId params)) = Ok en →
  getByIndex (connection that) EntityID (Js.toString (entityId params)) = Ok en →
  resolveConnection env that params s = resolveConnection env this params s.
Proof.
  intros Hopts Ht Hp He Htp Htp' Hen Hen'.
  unfold resolveConnection, lookupConnections, bind, call, ret.
  rewrite Ht, Hp, He, Htp, Htp', Hen, Hen'. by apply selectConnection_opts.
Qed.

(** ** Sessions *)

Section Sessions.

Context (env : Imports) (this : SSOHandler).

Lemma nextSessionId_record ev s :
  nextSessionId env (record ev s) = nextSessionId env s.
Proof. reflexivity. Qed.

Lemma nextSessionId_length s : String.length (nextSessionId env s) = 32%nat.
Proof. reflexivity. Qed.

(** The state a session write leaves behind when the store accepts it. *)
Lemma createSession_accepted requestId context verifier nonce s :
  put (session this) (nextSessionId env s)
    (newSession requestId context verifier nonce) = Ok () →
  createSession env this requestId context verifier nonce s
  = (Ok (relayStatePrefix env +:+ nextSessionId env s),
     {| sessions :=
          <[nextSessionId env s := newSession requestId context verifier nonce]>
            (sessions s);
        draws := S (draws s);
        trace :=
          (trace s ++ [RandomBytes 16])
          ++ [SessionPut (nextSessionId env s)
                (newSession requestId context verifier nonce)] |}).
Proof.
  unfold nextSessionId, createSession, bind, randomBytes, sessionPut, ret.
  cbv beta iota zeta. by intros ->.
Qed.

Lemma createSession_rejected requestId context verifier nonce s e :
  put (session this) (nextSessionId env s)
    (newSession requestId context verifier nonce) = Err e →
  createSession env this requestId context verifier nonce s
  = (Err e,
     {| sessions := sessions s;
        draws := S (draws s);
        trace :=
          (trace s ++ [RandomBytes 16])
          ++ [SessionPut (nextSessionId env s)
                (newSession requestId context verifier nonce)] |}).
Proof.
  unfold nextSessionId, createSession, bind, randomBytes, sessionPut, ret.
  cbv beta iota zeta. by intros ->.
Qed.

Lemma newSession_requested requestId context verifier nonce :
  requested (newSession requestId context verifier nonce) = context.
Proof.
  unfold newSession. by destruct (Js.truthy verifier), (Js.truthy nonce).
Qed.

Lemma newSession_id requestId context verifier nonce :
  id (newSession requestId context verifier nonce) = requestId.
Proof.
  unfold newSession. by destruct (Js.truthy verifier), (Js.truthy nonce).
Qed.

Lemma truthy_Some (x : option string) v :
  x = Some v ∧ v ≠ "" ↔ (Js.truthy x = true ∧ Js.toString x = v).
Proof.
  destruct x as [w|]; simpl.
  - destruct (String.eqb_spec w "") as [-> | Hw]; simpl.
    + split; [intros [[= <-] Hv]; by destruct Hv | intros [[=] _]].
    + split; [by intros [[= <-] _] | by intros [_ <-]].
  - split; [intros [[=] _] | intros [[=] _]].
Qed.

Lemma newSession_oidcCodeVerifier requestId context verifier nonce v :
  oidcCodeVerifier (newSession requestId context verifier nonce) = Some v
  ↔ verifier = Some v ∧ v ≠ "".
Proof.
  rewrite truthy_Some. unfold newSession.
  destruct (Js.truthy verifier), (Js.truthy nonce); simpl;
    (split; [intros [= <-] || intros [=] | intros [[=] <-] || intros [[=] _]]);
    done.
Qed.

Lemma newSession_oidcNonce requestId context verifier nonce v :
  oidcNonce (newSession requestId context verifier nonce) = Some v
  ↔ nonce = Some v ∧ v ≠ "".
Proof.
  rewrite truthy_Some. unfold newSession.
  destruct (Js.truthy verifier), (Js.truthy nonce); simpl;
    (split; [intros [= <-] || intros [=] | intros [[=] <-] || intros [[=] _]]);
    done.
Qed.

(** C5. When the store accepts the write, [createSession] returns the
    relay-state prefix followed by the identifier it generated, and the
    store then holds under that identifier a record whose [requested] is
    the context passed in, and whose [oidcCodeVerifier] and [oidcNonce] are
    present, with the values passed in, exactly when these were supplied
    (as non-empty strings, which is what the tests [if (oidcCodeVerifier)]
    and [if (oidcNonce)] accept). *)
Theorem createSession_round_trip requestId context verifier nonce s :
  put (session this) (nextSessionId env s)
    (newSession requestId context verifier nonce) = Ok () →
  ∃ s' stored,
    createSession env this requestId context verifier nonce s
    = (Ok (relayStatePrefix env +:+ nextSessionId env s), s')
    ∧ sessions s' !! nextSessionId env s = Some stored
    ∧ id stored = requestId
    ∧ requested stored = context
    ∧ samlFederated stored = true
    ∧ (∀ v, oidcCodeVerifier stored = Some v ↔ verifier = Some v ∧ v ≠ "")
    ∧ (∀ v, oidcNonce stored = Some v ↔ nonce = Some v ∧ v ≠ "").
Proof.
  intros Hput. eexists _, (newSession requestId context verifier nonce).
  split; [by apply createSession_accepted|]. simpl.
  split; [apply lookup_insert_eq|].
  split; [apply newSession_id|].
  split; [apply newSession_requested|].
  split; [unfold newSession; by destruct (Js.truthy verifier), (Js.truthy nonce)|].
  split; intros v; [apply newSession_oidcCodeVerifier | apply newSession_oidcNonce].
Qed.

End Sessions.

(** ** Building a SAML request *)

Section SAMLRequest.

Context (env : Imports) (this : SSOHandler).

Lemma encodeBinding_sessions ssoUrl post samlRequest relayState s :
  sessions (encodeBinding env ssoUrl post samlRequest relayState s).2 = sessions s.
Proof.
  unfold encodeBinding, bind, call, lift, ret. destruct post; simpl; [done|].
  destruct (deflateRaw env _); [|done]. by destruct (redirect_success env _ _).
Qed.

Lemma encodeBinding_trace ssoUrl post samlRequest relayState s :
  ∃ later,
    trace (encodeBinding env ssoUrl post samlRequest relayState s).2 = trace s ++ later.
Proof.
  unfold encodeBinding, bind, call, lift, ret. destruct post; simpl.
  - exists []. by rewrite app_nil_r.
  - destruct (deflateRaw env _); [|by eexists].
    destruct (redirect_success env _ _); by eexists.
Qed.

Lemma createSAMLRequest_run connection requestParams s certificate samlRequest :
  getDefaultCertificate env = Ok certificate →
  saml_request env
    (samlRequestOptions this connection certificate
       (selectEndpoint (sso (idpMetadata connection))).1) = Ok samlRequest →
  put (session this) (nextSessionId env s)
    (newSession (request_id samlRequest) (samlRequested connection requestParams)
       None None) = Ok () →
  createSAMLRequest env this connection requestParams s
  = encodeBinding env (selectEndpoint (sso (idpMetadata connection))).1
      (selectEndpoint (sso (idpMetadata connection))).2 samlRequest
      (relayStatePrefix env +:+ nextSessionId env s)
      (afterSession env this connection requestParams certificate samlRequest s).
Proof.
  intros Hcert Hreq Hput. unfold afterSession, createSAMLRequest, bind at 1 2, call.
  rewrite Hcert. destruct (selectEndpoint _) as [ssoUrl post]. simpl in Hreq |- *.
  rewrite Hreq. unfold bind.
  rewrite createSession_accepted by done.
  f_equal. unfold record, nextSessionId. cbn [sessions draws trace].
  by rewrite <- !app_assoc.
Qed.

Lemma selectEndpoint_post endpoints :
  (selectEndpoint endpoints).2 = true
  ↔ redirectUrl endpoints = None ∧ is_Some (postUrl endpoints).
Proof.
  unfold selectEndpoint.
  destruct (redirectUrl endpoints), (postUrl endpoints); simpl; split;
    try done; try (by intros [[=] _]); try (by intros [_ [? [=]]]).
Qed.

Lemma encodeBinding_form ssoUrl post samlRequest relayState s r :
  (encodeBinding env ssoUrl post samlRequest relayState s).1 = Ok r →
  is_Some (authorize_form r) ↔ post = true.
Proof.
  unfold encodeBinding, bind, call, lift, ret. destruct post; simpl.
  - intros [= <-]. simpl. split; [done | by eexists].
  - destruct (deflateRaw env _); [|done].
    destruct (redirect_success env _ _); [|done].
    intros [= <-]. simpl. split; [by intros [? [=]] | done].
Qed.

(** C4, as the code has it. For every SAML connection, a fulfilled
    [createSAMLRequest] hands out a form, the HTTP-POST binding, if and only
    if the metadata lists a POST endpoint and no redirect endpoint. Once the
    certificate is fetched, the request built and the session written, such
    a connection gets the form posting to that endpoint with the hidden
    fields RelayState and SAMLRequest, the base64 of the request as built,
    and no redirect URL; and a connection that lists a redirect endpoint,
    with or without a POST endpoint, gets the HTTP-Redirect binding: when
    [deflateRaw] and [redirect.success] succeed, the URL [redirect.success]
    makes of that endpoint, RelayState and the base64 of the deflated
    request, and no form. *)
Theorem createSAMLRequest_binding connection requestParams s :
  (∀ r,
     (createSAMLRequest env this connection requestParams s).1 = Ok r →
     is_Some (authorize_form r)
     ↔ redirectUrl (sso (idpMetadata connection)) = None
       ∧ is_Some (postUrl (sso (idpMetadata connection))))
  ∧ (∀ certificate samlRequest,
       getDefaultCertificate env = Ok certificate →
       saml_request env
         (samlRequestOptions this connection certificate
            (selectEndpoint (sso (idpMetadata connection))).1) = Ok samlRequest →
       put (session this) (nextSessionId env s)
         (newSession (request_id samlRequest)
            (samlRequested connection requestParams) None None) = Ok () →
       (∀ url,
          redirectUrl (sso (idpMetadata connection)) = None →
          postUrl (sso (idpMetadata connection)) = Some url →
          (createSAMLRequest env this connection requestParams s).1
          = Ok {| redirect_url := None;
                  authorize_form :=
                    Some (saml_createPostForm env (Js.Str url)
                            [("RelayState",
                              Js.Str (relayStatePrefix env +:+ nextSessionId env s));
                             ("SAMLRequest",
                              Js.Str (Encoding.toBase64
                                        (Encoding.bytesOf (request samlRequest))))]) |})
       ∧ (∀ url deflated location,
            redirectUrl (sso (idpMetadata connection)) = Some url →
            deflateRaw env (request samlRequest) = Ok deflated →
            redirect_success env (Some url)
              [("RelayState", relayStatePrefix env +:+ nextSessionId env s);
               ("SAMLRequest", Encoding.toBase64 deflated)] = Ok location →
            (createSAMLRequest env this connection requestParams s).1
            = Ok {| redirect_url := Some location; authorize_form := None |})).
Proof.
  split.
  - intros r. rewrite <- selectEndpoint_post.
    unfold createSAMLRequest, bind at 1 2, call.
    destruct (getDefaultCertificate env); [|done].
    destruct (selectEndpoint _) as [ssoUrl post].
    destruct (saml_request env _); [|done]. unfold bind.
    destruct (createSession env this _ _ _ _ _) as [[relayState|e] s1]; [|done].
    apply encodeBinding_form.
  - intros certificate samlRequest Hcert Hreq Hput.
    rewrite (createSAMLRequest_run _ _ _ _ _ Hcert Hreq Hput).
    unfold selectEndpoint. split.
    + intros url -> ->. reflexivity.
    + intros url deflated location -> Hdeflate Hlocation.
      unfold encodeBinding, bind, call, lift. simpl. rewrite Hdeflate.
      change (Js.literal ?l) with l. by rewrite Hlocation.
Qed.

(** C7, what the code does. For a connection that lists neither endpoint,
    [createSAMLRequest] raises no error of its own: it asks [saml.request]
    for a request with an undefined [ssoUrl], writes the session, and hands
    the undefined endpoint to [redirect.success], whose outcome becomes the
    outcome of the call. *)
Theorem createSAMLRequest_without_endpoint
    connection requestParams s certificate samlRequest deflated :
  redirectUrl (sso (idpMetadata connection)) = None →
  postUrl (sso (idpMetadata connection)) = None →
  getDefaultCertificate env = Ok certificate →
  saml_request env (samlRequestOptions this connection certificate None)
  = Ok samlRequest →
  put (session this) (nextSessionId env s)
    (newSession (request_id samlRequest) (samlRequested connection requestParams)
       None None) = Ok () →
  deflateRaw env (request samlRequest) = Ok deflated →
  (createSAMLRequest env this connection requestParams s).1
  = match redirect_success env None
            [("RelayState", relayStatePrefix env +:+ nextSessionId env s);
             ("SAMLRequest", Encoding.toBase64 deflated)] with
    | Ok location => Ok {| redirect_url := Some location; authorize_form := None |}
    | Err e => Err e
    end
  ∧ SamlRequest (samlRequestOptions this connection certificate None)
    ∈ trace (createSAMLRequest env this connection requestParams s).2
  ∧ req_ssoUrl (samlRequestOptions this connection certificate None) = None
  ∧ sessions (createSAMLRequest env this connection requestParams s).2
      !! nextSessionId env s
    = Some (newSession (request_id samlRequest)
              (samlRequested connection requestParams) None None).
Proof.
  intros Hredirect Hpost Hcert Hreq Hput Hdeflate.
  assert (selectEndpoint (sso (idpMetadata connection)) = (None, false)) as Hep.
  { unfold selectEndpoint. by rewrite Hredirect, Hpost. }
  assert (saml_request env
            (samlRequestOptions this connection certificate
               (selectEndpoint (sso (idpMetadata connection))).1) = Ok samlRequest)
    as Hreq' by (by rewrite Hep).
  rewrite (createSAMLRequest_run _ _ _ _ _ Hcert Hreq' Hput).
  split; [|split; [|split]].
  - rewrite Hep. unfold encodeBinding, bind, call, lift. simpl. rewrite Hdeflate.
    change (Js.literal ?l) with l. by destruct (redirect_success env _ _).
  - destruct (encodeBinding_trace (selectEndpoint (sso (idpMetadata connection))).1
                (selectEndpoint (sso (idpMetadata connection))).2 samlRequest
                (relayStatePrefix env +:+ nextSessionId env s)
                (afterSession env this connection requestParams certificate
                   samlRequest s)) as [later ->].
    unfold afterSession. cbn [trace]. rewrite Hep.
    rewrite !elem_of_app, !elem_of_cons. tauto.
  - reflexivity.
  - rewrite encodeBinding_sessions. apply lookup_insert_eq.
Qed.

(** C10. Once the certificate is fetched, the request built and the session
    written, there is a session identifier such that the RelayState handed
    out, in the form under the HTTP-POST binding and to [redirect.success]
    otherwise, is the relay-state prefix followed by that identifier, and
    such that the store holds under that identifier a session whose
    [requested] has [client_id] equal to the clientID of the connection,
    whatever [client_id] the caller's parameters had, and has every other
    entry of the caller's parameters unchanged. *)
Theorem createSAMLRequest_session_client_id
    connection requestParams s certificate samlRequest :
  getDefaultCertificate env = Ok certificate →
  saml_request env
    (samlRequestOptions this connection certificate
       (selectEndpoint (sso (idpMetadata connection))).1) = Ok samlRequest →
  put (session this) (nextSessionId env s)
    (newSession (request_id samlRequest) (samlRequested connection requestParams)
       None None) = Ok () →
  ∃ sessionId stored,
    (∀ url,
       redirectUrl (sso (idpMetadata connection)) = None →
       postUrl (sso (idpMetadata connection)) = Some url →
       (createSAMLRequest env this connection requestParams s).1
       = Ok {| redirect_url := None;
               authorize_form :=
                 Some (saml_createPostForm env (Js.Str url)
                         [("RelayState", Js.Str (relayStatePrefix env +:+ sessionId));
                          ("SAMLRequest",
                           Js.Str (Encoding.toBase64
                                     (Encoding.bytesOf (request samlRequest))))]) |})
    ∧ (∀ deflated,
         is_Some (redirectUrl (sso (idpMetadata connection)))
         ∨ postUrl (sso (idpMetadata connection)) = None →
         deflateRaw env (request samlRequest) = Ok deflated →
         (createSAMLRequest env this connection requestParams s).1
         = match redirect_success env (redirectUrl (sso (idpMetadata connection)))
                   [("RelayState", relayStatePrefix env +:+ sessionId);
                    ("SAMLRequest", Encoding.toBase64 deflated)] with
           | Ok location =>
               Ok {| redirect_url := Some location; authorize_form := None |}
           | Err e => Err e
           end)
    ∧ sessions (createSAMLRequest env this connection requestParams s).2 !! sessionId
      = Some stored
    ∧ id stored = request_id samlRequest
    ∧ requested stored !! "client_id" = Some (Js.Str (saml_clientID connection))
    ∧ (∀ k, k ≠ "client_id" → requested stored !! k = requestParams !! k).
Proof.
  intros Hcert Hreq Hput.
  rewrite (createSAMLRequest_run _ _ _ _ _ Hcert Hreq Hput).
  rewrite encodeBinding_sessions.
  exists (nextSessionId env s). eexists.
  split; [|split; [|split; [apply lookup_insert_eq|]]].
  - unfold selectEndpoint. intros url -> ->. reflexivity.
  - intros deflated Hendpoint Hdeflate.
    assert (selectEndpoint (sso (idpMetadata connection))
            = (redirectUrl (sso (idpMetadata connection)), false)) as ->.
    { unfold selectEndpoint.
      destruct (redirectUrl (sso (idpMetadata connection))) as [url|]; [done|].
      destruct Hendpoint as [[? [=]] | ->]. done. }
    unfold encodeBinding, bind, call, lift. simpl. rewrite Hdeflate.
    change (Js.literal ?l) with l. by destruct (redirect_success env _ _).
  - cbn. split; [done|]. unfold samlRequested. split.
    + apply lookup_insert_eq.
    + intros k Hk. by apply lookup_insert_ne.
Qed.

End SAMLRequest.

(** ** Building an OIDC request *)

Section OIDCRequest.

Context (env : Imports) (this : SSOHandler).

(** C9. When [oidcPath] is not configured (absent or empty),
    [createOIDCRequest] rejects with the 400 error saying so and leaves the
    state as it found it: no call was logged, no session was written. *)
Theorem createOIDCRequest_requires_oidcPath connection requestParams s :
  Js.truthy (oidcPath (opts this)) = false →
  createOIDCRequest env this connection requestParams s
  = (Err (JacksonError "OpenID response handler path (oidcPath) is not set" 400), s).
Proof. intros H. unfold createOIDCRequest. by rewrite H. Qed.

(** With [oidcPath] configured the first thing the call does is contact the
    issuer. *)
Lemma createOIDCRequest_contacts_issuer connection requestParams s :
  Js.truthy (oidcPath (opts this)) = true →
  ∃ later,
    trace (createOIDCRequest env this connection requestParams s).2
    = trace s ++ OidcIssuerInstance (discoveryUrl (oidcProvider connection)) :: later.
Proof.
  intros H. unfold createOIDCRequest. rewrite H. cbn [negb].
  apply first_call; eauto 10 with grows.
Qed.

End OIDCRequest.

(** ** Building a SAML response *)

Section SAMLResponse.

Context (env : Imports) (this : SSOHandler).

Lemma createSAMLResponse_certificate_failure profile session s e :
  getDefaultCertificate env = Err e →
  createSAMLResponse env this profile session s
  = (Err e, record GetDefaultCertificate s).
Proof. intros H. unfold createSAMLResponse, bind, call. by rewrite H. Qed.

Lemma createSAMLResponse_built profile session s certificate signed :
  getDefaultCertificate env = Ok certificate →
  lib_createSAMLResponse env (samlResponseOptions this profile session certificate)
  = Ok signed →
  (createSAMLResponse env this profile session s).1
  = Ok {| responseForm :=
            saml_createPostForm env (JsValue.prop "acsUrl" (requested session))
              [("RelayState", JsValue.prop "relayState" (requested session));
               ("SAMLResponse",
                Js.Str (Encoding.toBase64 (Encoding.bytesOf signed)))] |}.
Proof.
  intros Hcert Hsigned. unfold createSAMLResponse, tryCatch, bind, call.
  by rewrite Hcert, Hsigned.
Qed.

(** C8, as the code has it. Once the signing key pair has been obtained, a
    failure to build or sign the response makes the call reject with the
    403 error 'Unable to validate SAML Response.', and the call rejects
    with nothing else; a failure to obtain the key pair happens before the
    guarded block and is the error the call rejects with. *)
Theorem createSAMLResponse_errors profile session s :
  (∀ certificate,
     getDefaultCertificate env = Ok certificate →
     (∀ e,
        lib_createSAMLResponse env
          (samlResponseOptions this profile session certificate) = Err e →
        (createSAMLResponse env this profile session s).1
        = Err (JacksonError "Unable to validate SAML Response." 403))
     ∧ (∀ e,
          (createSAMLResponse env this profile session s).1 = Err e →
          e = JacksonError "Unable to validate SAML Response." 403))
  ∧ (∀ e,
       getDefaultCertificate env = Err e →
       (createSAMLResponse env this profile session s).1 = Err e).
Proof.
  split.
  - intros certificate Hcert.
    unfold createSAMLResponse, tryCatch, bind, call, throw, ret. rewrite Hcert.
    split; intros e; destruct (lib_createSAMLResponse env _); simpl; congruence.
  - intros e He. by rewrite (createSAMLResponse_certificate_failure _ _ _ _ He).
Qed.

End SAMLResponse.

(** ** The deployment, run *)

(** An entity id nobody registered. *)
Lemma resolveConnection_empty_not_found_witness :
  resolveConnection Demo.env Demo.handler
    (Demo.resolveParams saml [] None None (Some "idp-9") None) Demo.initial
  = (Err (JacksonError "No SSO connection found." 404),
     record (GetByIndex EntityID "idp-9") Demo.initial).
Proof.
  apply (resolveConnection_empty_not_found Demo.env Demo.handler
           (Demo.resolveParams saml [] None None (Some "idp-9") None)
           Demo.initial (Some [])).
  - reflexivity.
  - right. reflexivity.
Defined.

(** Tenant acme, product crm has two connections and entity id idp-1 has one:
    with both supplied the one is resolved. *)
Lemma entity_lookup_supersedes_witness :
  resolveConnection Demo.env Demo.handler
    (Demo.resolveParams saml [] (Some "acme") (Some "crm") (Some "idp-1") None)
    Demo.initial
  = (Ok (Connection Demo.google),
     {| sessions := ∅; draws := 0;
        trace := [GetByIndex TenantProduct "acme:crm"; GetByIndex EntityID "idp-1"] |}).
Proof.
  pose proof
    (entity_lookup_supersedes Demo.env Demo.handler
       (Demo.resolveParams saml [] (Some "acme") (Some "crm") (Some "idp-1") None)
       Demo.initial
       {| data := [Demo.okta; Demo.azure]; pageToken := None |}
       {| data := [Demo.google]; pageToken := None |}
       eq_refl eq_refl eq_refl eq_refl eq_refl) as [_ H].
  rewrite H. reflexivity.
Defined.

Lemma idp_hint_selects_witness :
  resolveConnection Demo.env Demo.handler
    (Demo.resolveParams saml [] (Some "acme") (Some "crm") None (Some "client-azure"))
    Demo.initial
  = (Ok (Connection Demo.azure), record (GetByIndex TenantProduct "acme:crm") Demo.initial)
  ∧ resolveConnection Demo.env Demo.handler
      (Demo.resolveParams saml [] (Some "acme") (Some "crm") None (Some "client-aws"))
      Demo.initial
    = (Err (JacksonError "No SSO connection found." 404),
       record (GetByIndex TenantProduct "acme:crm") Demo.initial).
Proof.
  split.
  - apply (proj1 (idp_hint_selects Demo.env Demo.handler
                    (Demo.resolveParams saml [] (Some "acme") (Some "crm") None
                       (Some "client-azure"))
                    Demo.initial [Demo.okta; Demo.azure]
                    (record (GetByIndex TenantProduct "acme:crm") Demo.initial)
                    "client-azure" eq_refl eq_refl ltac:(discriminate))
             [Demo.okta] Demo.azure []).
    + reflexivity.
    + intros c' Hc'. apply list_elem_of_singleton in Hc' as ->. discriminate.
    + reflexivity.
  - apply (proj2 (idp_hint_selects Demo.env Demo.handler
                    (Demo.resolveParams saml [] (Some "acme") (Some "crm") None
                       (Some "client-aws"))
                    Demo.initial [Demo.okta; Demo.azure]
                    (record (GetByIndex TenantProduct "acme:crm") Demo.initial)
                    "client-aws" eq_refl eq_refl ltac:(discriminate))).
    intros c Hc. apply elem_of_cons in Hc as [-> | Hc]; [discriminate|].
    apply list_elem_of_singleton in Hc as ->. discriminate.
Defined.

(** C6, the claim refuted. Two connections, flow saml, no hint, tenant and
    product supplied, and an original parameter named authFlow: the redirect
    carries the original value, not authFlow=sp-initiated. *)
Lemma sp_initiated_authFlow_overridden :
  lookupConnections Demo.env Demo.handler
    (Demo.resolveParams saml [("authFlow", "idp-initiated")] (Some "acme") (Some "crm")
       None None) Demo.initial
  = (Ok (Some [Demo.okta; Demo.azure]),
     record (GetByIndex TenantProduct "acme:crm") Demo.initial)
  ∧ resolveConnection Demo.env Demo.handler
      (Demo.resolveParams saml [("authFlow", "idp-initiated")] (Some "acme") (Some "crm")
         None None) Demo.initial
    = (Ok (RedirectUrl
             "https://sso.example.com/idp/select?tenant=acme&product=crm&authFlow=idp-initiated&samlFedAppId="),
       record (GetByIndex TenantProduct "acme:crm") Demo.initial)
  ∧ Encoding.includes "authFlow=sp-initiated"
      "https://sso.example.com/idp/select?tenant=acme&product=crm&authFlow=idp-initiated&samlFedAppId="
    = false.
Proof. repeat split; reflexivity. Qed.

Lemma sp_initiated_discovery_redirect_witness :
  ∃ query : Js.Object,
    resolveConnection Demo.env Demo.handler
      (Demo.resolveParams oauth [("state", "xyz")] (Some "acme") (Some "crm") None None)
      Demo.initial
    = (Ok (RedirectUrl
             ("https://sso.example.com/idp/select" +:+ "?" +:+ Js.searchParams query)),
       record (GetByIndex TenantProduct "acme:crm") Demo.initial)
    ∧ NoDup query.*1
    ∧ ("state", "xyz") ∈ query
    ∧ ("tenant", "acme") ∈ query
    ∧ ("authFlow", "sp-initiated") ∈ query.
Proof.
  destruct (sp_initiated_discovery_redirect Demo.env Demo.handler
              (Demo.resolveParams oauth [("state", "xyz")] (Some "acme") (Some "crm")
                 None None)
              Demo.initial [Demo.okta; Demo.azure]
              (record (GetByIndex TenantProduct "acme:crm") Demo.initial)
              "https://sso.example.com/idp/select" "acme" "crm")
    as (query & Hresult & Hnodup & Horiginal & Hown & _).
  - reflexivity.
  - simpl. lia.
  - reflexivity.
  - left. reflexivity.
  - reflexivity.
  - discriminate.
  - reflexivity.
  - discriminate.
  - reflexivity.
  - apply NoDup_singleton.
  - exists query. split; [exact Hresult|]. split; [exact Hnodup|]. split; [|split].
    + apply Horiginal. apply list_elem_of_here.
    + apply Hown; [apply list_elem_of_here | reflexivity].
    + apply Hown; [|reflexivity].
      do 2 apply list_elem_of_further. apply list_elem_of_here.
Defined.

(** C4, the claim refuted. The metadata of this connection lists a POST
    endpoint, next to a redirect endpoint, and the request goes out by
    HTTP-Redirect: a redirect URL and no form. *)
Lemma both_endpoints_use_redirect :
  postUrl (sso (idpMetadata (Demo.samlOf Demo.okta)))
  = Some "https://okta.example.com/sso/post"
  ∧ (createSAMLRequest Demo.env Demo.handler (Demo.samlOf Demo.okta) ∅ Demo.initial).1
    = Ok {| redirect_url :=
              Some "https://okta.example.com/sso/redirect?RelayState=boxyhq_jackson_5a5a5a5a5a5a5a5a5a5a5a5a5a5a5a5a&SAMLRequest=PHNhbWxwOkF1dGhuUmVxdWVzdCBJRD0nXzRmMmEnLz4%3D";
            authorize_form := None |}.
Proof. split; reflexivity. Qed.

Lemma createSAMLRequest_binding_witness :
  (createSAMLRequest Demo.env Demo.handler (Demo.samlOf Demo.azure) ∅ Demo.initial).1
  = Ok {| redirect_url := None;
          authorize_form :=
            Some "<form method='post' action='https://login.example.net/saml2'><input type='hidden' name='RelayState' value='boxyhq_jackson_5a5a5a5a5a5a5a5a5a5a5a5a5a5a5a5a'/><input type='hidden' name='SAMLRequest' value='PHNhbWxwOkF1dGhuUmVxdWVzdCBJRD0nXzRmMmEnLz4='/></form>" |}
  ∧ (createSAMLRequest Demo.env Demo.handler (Demo.samlOf Demo.okta) ∅ Demo.initial).1
    = Ok {| redirect_url :=
              Some "https://okta.example.com/sso/redirect?RelayState=boxyhq_jackson_5a5a5a5a5a5a5a5a5a5a5a5a5a5a5a5a&SAMLRequest=PHNhbWxwOkF1dGhuUmVxdWVzdCBJRD0nXzRmMmEnLz4%3D";
            authorize_form := None |}
  ∧ (∀ r,
       (createSAMLRequest Demo.env Demo.handler (Demo.samlOf Demo.okta) ∅
          Demo.initial).1 = Ok r →
       ¬ is_Some (authorize_form r)).
Proof.
  split; [|split].
  - apply (proj1 (proj2 (createSAMLRequest_binding Demo.env Demo.handler
                           (Demo.samlOf Demo.azure) ∅ Demo.initial)
                    {| publicKey := "PUBLIC KEY"; privateKey := "PRIVATE KEY" |}
                    {| request_id := "_4f2a";
                       request := "<samlp:AuthnRequest ID='_4f2a'/>" |}
                    eq_refl eq_refl eq_refl)
             "https://login.example.net/saml2"); reflexivity.
  - apply (proj2 (proj2 (createSAMLRequest_binding Demo.env Demo.handler
                           (Demo.samlOf Demo.okta) ∅ Demo.initial)
                    {| publicKey := "PUBLIC KEY"; privateKey := "PRIVATE KEY" |}
                    {| request_id := "_4f2a";
                       request := "<samlp:AuthnRequest ID='_4f2a'/>" |}
                    eq_refl eq_refl eq_refl)
             "https://okta.example.com/sso/redirect"
             (Encoding.bytesOf "<samlp:AuthnRequest ID='_4f2a'/>")); reflexivity.
  - intros r Hr Hform.
    apply (proj1 (createSAMLRequest_binding Demo.env Demo.handler
                    (Demo.samlOf Demo.okta) ∅ Demo.initial) r Hr) in Hform.
    destruct Hform as [Hredirect _]. discriminate Hredirect.
Defined.

Lemma createSession_round_trip_witness :
  ∃ s' stored,
    createSession Demo.env Demo.handler "client-google" {["state" := Js.Str "xyz"]}
      (Some "verifier") None Demo.initial
    = (Ok "boxyhq_jackson_5a5a5a5a5a5a5a5a5a5a5a5a5a5a5a5a", s')
    ∧ sessions s' !! Demo.sessionId = Some stored
    ∧ requested stored = {["state" := Js.Str "xyz"]}
    ∧ oidcCodeVerifier stored = Some "verifier"
    ∧ oidcNonce stored = None.
Proof.
  destruct (createSession_round_trip Demo.env Demo.handler "client-google"
              {["state" := Js.Str "xyz"]} (Some "verifier") None Demo.initial eq_refl)
    as (s' & stored & Hrun & Hstored & _ & Hrequested & _ & Hverifier & Hnonce).
  exists s', stored. split; [exact Hrun|]. split; [exact Hstored|].
  split; [exact Hrequested|]. split.
  - apply Hverifier. split; [reflexivity | discriminate].
  - destruct (oidcNonce stored) as [v|] eqn:E; [|reflexivity].
    destruct (proj1 (Hnonce v) eq_refl) as [E' _]. discriminate E'.
Defined.

Lemma createSAMLRequest_without_endpoint_witness :
  (createSAMLRequest Demo.env Demo.handler Demo.bare ∅ Demo.initial).1
  = Err (Thrown "TypeError" "Invalid URL")
  ∧ SamlRequest
      (samlRequestOptions Demo.handler Demo.bare
         {| publicKey := "PUBLIC KEY"; privateKey := "PRIVATE KEY" |} None)
    ∈ trace (createSAMLRequest Demo.env Demo.handler Demo.bare ∅ Demo.initial).2
  ∧ is_Some (sessions (createSAMLRequest Demo.env Demo.handler Demo.bare ∅ Demo.initial).2
               !! Demo.sessionId).
Proof.
  destruct (createSAMLRequest_without_endpoint Demo.env Demo.handler Demo.bare ∅
              Demo.initial
              {| publicKey := "PUBLIC KEY"; privateKey := "PRIVATE KEY" |}
              {| request_id := "_4f2a"; request := "<samlp:AuthnRequest ID='_4f2a'/>" |}
              (Encoding.bytesOf "<samlp:AuthnRequest ID='_4f2a'/>")
              eq_refl eq_refl eq_refl eq_refl eq_refl eq_refl)
    as (Hresult & Htrace & _ & Hsession).
  split; [exact Hresult|]. split; [exact Htrace|].
  eexists. exact Hsession.
Defined.

(** C8, the claim refuted. The certificate provider has no certificate: the
    call rejects with the provider's error, not with the 403 error. *)
Lemma createSAMLResponse_leaks_certificate_error :
  (createSAMLResponse Demo.envWithoutCertificate Demo.handler Demo.profile
     Demo.federated Demo.initial).1
  = Err (Thrown "Error" "No certificate found")
  ∧ Thrown "Error" "No certificate found"
    ≠ JacksonError "Unable to validate SAML Response." 403.
Proof. split; [reflexivity | discriminate]. Qed.

Lemma createSAMLResponse_errors_witness :
  (∀ e,
     (createSAMLResponse Demo.env Demo.handler Demo.profile Demo.federated
        Demo.initial).1 = Err e →
     e = JacksonError "Unable to validate SAML Response." 403)
  ∧ (createSAMLResponse Demo.envWithoutCertificate Demo.handler Demo.profile
       Demo.federated Demo.initial).1
    = Err (Thrown "Error" "No certificate found").
Proof.
  split.
  - apply (proj1 (createSAMLResponse_errors Demo.env Demo.handler Demo.profile
                    Demo.federated Demo.initial)
             {| publicKey := "PUBLIC KEY"; privateKey := "PRIVATE KEY" |} eq_refl).
  - apply (proj2 (createSAMLResponse_errors Demo.envWithoutCertificate Demo.handler
                    Demo.profile Demo.federated Demo.initial)).
    reflexivity.
Defined.

Lemma createOIDCRequest_requires_oidcPath_witness :
  createOIDCRequest Demo.env Demo.handlerWithoutOidcPath
    {| oidc_clientID := "client-google";
       oidcProvider := {| discoveryUrl := None; metadata := None;
                          clientId := Some "broker"; clientSecret := None |} |}
    ∅ Demo.initial
  = (Err (JacksonError "OpenID response handler path (oidcPath) is not set" 400),
     Demo.initial).
Proof.
  apply (createOIDCRequest_requires_oidcPath Demo.env Demo.handlerWithoutOidcPath).
  reflexivity.
Defined.

(** The caller's own client_id is replaced, its state is kept, and the form
    carries the token of the session. *)
Lemma createSAMLRequest_session_client_id_witness :
  ∃ sessionId stored,
    (createSAMLRequest Demo.env Demo.handler (Demo.samlOf Demo.azure)
       {["client_id" := Js.Str "spoofed"; "state" := Js.Str "xyz"]}
       Demo.initial).1
    = Ok {| redirect_url := None;
            authorize_form :=
              Some (saml_createPostForm Demo.env (Js.Str "https://login.example.net/saml2")
                      [("RelayState", Js.Str ("boxyhq_jackson_" +:+ sessionId));
                       ("SAMLRequest",
                        Js.Str "PHNhbWxwOkF1dGhuUmVxdWVzdCBJRD0nXzRmMmEnLz4=")]) |}
    ∧ sessions (createSAMLRequest Demo.env Demo.handler (Demo.samlOf Demo.azure)
                  {["client_id" := Js.Str "spoofed"; "state" := Js.Str "xyz"]}
                  Demo.initial).2 !! sessionId = Some stored
    ∧ requested stored !! "client_id" = Some (Js.Str "client-azure")
    ∧ requested stored !! "state" = Some (Js.Str "xyz").
Proof.
  destruct (createSAMLRequest_session_client_id Demo.env Demo.handler
              (Demo.samlOf Demo.azure)
              {["client_id" := Js.Str "spoofed"; "state" := Js.Str "xyz"]}
              Demo.initial
              {| publicKey := "PUBLIC KEY"; privateKey := "PRIVATE KEY" |}
              {| request_id := "_4f2a"; request := "<samlp:AuthnRequest ID='_4f2a'/>" |}
              eq_refl eq_refl eq_refl)
    as (sessionId & stored & Hform & _ & Hstored & _ & Hclient & Hothers).
  exists sessionId, stored.
  split; [exact (Hform "https://login.example.net/saml2" eq_refl eq_refl)|].
  split; [exact Hstored|]. split; [exact Hclient|].
  rewrite Hothers by discriminate. reflexivity.
Defined.

(** ** The scenarios of the design document *)

(** Two SAML connections for tenant acme, product crm; flow saml, no hint. *)
Example scenario_discovery_redirect :
  ∃ url,
    (resolveConnection Demo.env Demo.handler
       (Demo.resolveParams saml [] (Some "acme") (Some "crm") None None)
       Demo.initial).1 = Ok (RedirectUrl url)
    ∧ Encoding.includes "tenant=acme&product=crm&authFlow=sp-initiated" url = true.
Proof. eexists. split; reflexivity. Qed.

(** Entity id idp-1 matches exactly one connection. *)
Example scenario_single_connection :
  (resolveConnection Demo.env Demo.handler
     (Demo.resolveParams idp_initiated [] None None (Some "idp-1") None)
     Demo.initial).1 = Ok (Connection Demo.google).
Proof. reflexivity. Qed.

(** Flow idp-initiated, an entity id with two connections, an incoming
    assertion. *)
Example scenario_idp_initiated_form :
  (resolveConnection Demo.env Demo.handler
     (Demo.resolveParams idp_initiated [("SAMLResponse", "abc123")] None None
        (Some "idp-2") None)
     Demo.initial).1
  = Ok (PostForm
          (saml_createPostForm Demo.env
             (Js.Str "/idp/select?entityId=idp-2&authFlow=idp-initiated")
             [("SAMLResponse", Js.Str "abc123")])).
Proof. reflexivity. Qed.

(** Several connections and neither discovery branch applies: the first
    connection is returned. *)
Example scenario_fall_through :
  (resolveConnection Demo.env Demo.handler
     (Demo.resolveParams saml [] None None (Some "idp-2") None)
     Demo.initial).1 = Ok (Connection Demo.azure).
Proof. reflexivity. Qed.

(** An empty verifier is not stored. *)
Example empty_verifier_not_stored :
  oidcCodeVerifier (newSession "r" ∅ (Some "") (Some "n")) = None
  ∧ oidcNonce (newSession "r" ∅ (Some "") (Some "n")) = Some "n".
Proof. split; reflexivity. Qed.


(** * Further properties of the handler *)

(** ** Hexadecimal identifiers *)

Module HexFacts.

Import Encoding.

Lemma hex_digits_of_byte b :
  isLowerHexDigit (lowerHexDigit (Byte.to_N b / 16)) = true
  ∧ isLowerHexDigit (lowerHexDigit (Byte.to_N b mod 16)) = true.
Proof. destruct b; split; reflexivity. Qed.

Lemma toHex_allChars l : allChars isLowerHexDigit (toHex l) = true.
Proof.
  induction l as [|b l IH]; [done|].
  destruct (hex_digits_of_byte b) as [Hhi Hlo]. simpl.
  by rewrite Hhi, Hlo, IH.
Qed.

Lemma lowerHexDigit_code n :
  n < 16 →
  N_of_ascii (lowerHexDigit n) = if n <? 10 then 48 + n else 87 + n.
Proof.
  intros Hn. unfold lowerHexDigit.
  destruct (N.ltb_spec n 10); apply N_ascii_embedding; lia.
Qed.

Lemma lowerHexDigit_inj n m :
  n < 16 → m < 16 → lowerHexDigit n = lowerHexDigit m → n = m.
Proof.
  intros Hn Hm H. apply (f_equal N_of_ascii) in H.
  rewrite !lowerHexDigit_code in H by done.
  destruct (N.ltb_spec n 10), (N.ltb_spec m 10); lia.
Qed.

Lemma byte_of_digits a b :
  Byte.to_N a / 16 = Byte.to_N b / 16 →
  Byte.to_N a mod 16 = Byte.to_N b mod 16 →
  a = b.
Proof.
  intros Hhi Hlo.
  assert (Byte.to_N a = Byte.to_N b) as H.
  { rewrite (N.div_mod (Byte.to_N a) 16), (N.div_mod (Byte.to_N b) 16) by lia.
    by rewrite Hhi, Hlo. }
  apply (f_equal Byte.of_N) in H. rewrite !Byte.of_to_N in H. congruence.
Qed.

(** Different bytes never print as the same hexadecimal text. *)
Lemma toHex_inj l1 l2 : toHex l1 = toHex l2 → l1 = l2.
Proof.
  revert l2. induction l1 as [|a l1 IH]; intros [|b l2]; simpl; try done.
  intros [= Hhi Hlo Hrest].
  pose proof (Byte.to_N_bounded a). pose proof (Byte.to_N_bounded b).
  apply lowerHexDigit_inj in Hhi;
    [|apply N.Div0.div_lt_upper_bound; lia | apply N.Div0.div_lt_upper_bound; lia].
  apply lowerHexDigit_inj in Hlo; [|apply N.mod_lt; lia | apply N.mod_lt; lia].
  f_equal; [by apply byte_of_digits | by apply IH].
Qed.

End HexFacts.

(** ** More on resolving a connection *)

Section ResolveConnectionFurther.

Context (env : Imports) (this : SSOHandler).





End ResolveConnectionFurther.

Section ResolveConnectionBranches.

Context (env : Imports) (this : SSOHandler).

(** X1. With exactly one connection found, the discovery URL is never built:
    without a hint the call resolves to that connection, with a hint it
    resolves to it when its clientID is the hint and rejects with the 404
    error otherwise; the flow and the options of the broker play no part. *)
Theorem single_connection_resolved params s c s' :
  lookupConnections env this params s = (Ok (Some [c]), s') →
  resolveConnection env this params s
  = (if Js.truthy (idp_hint params)
        && negb (String.eqb (clientID c) (Js.toString (idp_hint params)))
     then Err (JacksonError "No SSO connection found." 404)
     else Ok (Connection c),
     s').
Proof.
  intros Hlookup. rewrite (resolveConnection_after_lookup env this _ _ _ _ Hlookup).
  unfold selectConnection. destruct (Js.truthy (idp_hint params)); [|done].
  simpl. by destruct (String.eqb (clientID c) _).
Qed.

(** X2. With several connections found, no hint, flow idp-initiated, an
    entity id supplied and a discovery URL that parses, the call resolves to
    the form [saml.createPostForm] makes for the discovery path (not the
    external URL) with the query entityId, authFlow=idp-initiated, and one
    hidden field SAMLResponse holding the original parameter of that name,
    undefined when there is none. *)
Theorem idp_initiated_discovery_form params s connections s' url entity :
  lookupConnections env this params s = (Ok (Some connections), s') →
  (1 < length connections)%nat →
  Js.truthy (idp_hint params) = false →
  authFlow params = idp_initiated →
  entityId params = Some entity →
  entity ≠ "" →
  URL_href env (externalUrl (opts this) +:+ Js.toString (idpDiscoveryPath (opts this)))
  = Ok url →
  resolveConnection env this params s
  = (Ok (PostForm
           (saml_createPostForm env
              (Js.Str (Js.toString (idpDiscoveryPath (opts this)) +:+ "?"
                       +:+ "entityId=" +:+ Encoding.formEncode entity
                       +:+ "&authFlow=idp-initiated"))
              [("SAMLResponse",
                JsValue.ofOption (Js.get "SAMLResponse" (originalParams params)))])),
     s').
Proof.
  intros Hlookup Hlen Hhint Hflow Hentity Hne Hurl.
  rewrite (resolveConnection_after_lookup env this _ _ _ _ Hlookup). unfold selectConnection.
  destruct connections as [|c0 [|c1 rest]]; simpl in Hlen; [lia | lia |].
  rewrite Hhint. change (1 <? length (c0 :: c1 :: rest))%nat with true.
  unfold bind, lift. rewrite Hurl, Hflow, Hentity.
  cbn [andb Js.truthy Js.toString authFlowName].
  by destruct (String.eqb_spec entity "").
Qed.

(** X3. With several connections found, no hint and a discovery URL that
    parses, when neither discovery branch applies (flow oauth or saml
    without both tenant and product, or flow idp-initiated without an entity
    id) the call resolves to the first connection found. *)
Theorem ambiguous_resolves_to_first params s first rest s' url :
  lookupConnections env this params s = (Ok (Some (first :: rest)), s') →
  rest ≠ [] →
  Js.truthy (idp_hint params) = false →
  URL_href env (externalUrl (opts this) +:+ Js.toString (idpDiscoveryPath (opts this)))
  = Ok url →
  (authFlow params ≠ idp_initiated ∧
   Js.truthy (tenant params) && Js.truthy (product params) = false)
  ∨ (authFlow params = idp_initiated ∧ Js.truthy (entityId params) = false) →
  resolveConnection env this params s = (Ok (Connection first), s').
Proof.
  intros Hlookup Hrest Hhint Hurl Hbranch.
  rewrite (resolveConnection_after_lookup env this _ _ _ _ Hlookup). unfold selectConnection.
  destruct rest as [|c1 rest]; [done|].
  rewrite Hhint. change (1 <? length (first :: c1 :: rest))%nat with true.
  unfold bind, lift. rewrite Hurl.
  destruct Hbranch as [[Hflow Htp] | [Hflow He]].
  - rewrite <- andb_assoc, Htp, andb_false_r. by destruct (authFlow params).
  - by rewrite Hflow, He.
Qed.

(** X4. With several connections found and no hint, a discovery URL that
    does not parse makes the call reject with the error of the URL
    constructor, whatever the flow, also when no discovery would have taken
    place. *)
Theorem invalid_discovery_url_rejects params s connections s' e :
  lookupConnections env this params s = (Ok (Some connections), s') →
  (1 < length connections)%nat →
  Js.truthy (idp_hint params) = false →
  URL_href env (externalUrl (opts this) +:+ Js.toString (idpDiscoveryPath (opts this)))
  = Err e →
  resolveConnection env this params s = (Err e, s').
Proof.
  intros Hlookup Hlen Hhint Hurl.
  rewrite (resolveConnection_after_lookup env this _ _ _ _ Hlookup). unfold selectConnection.
  destruct connections as [|c0 [|c1 rest]]; simpl in Hlen; [lia | lia |].
  rewrite Hhint. change (1 <? length (c0 :: c1 :: rest))%nat with true.
  unfold bind, lift. by rewrite Hurl.
Qed.

(** X5. A failing index query ends the call with the store's own error: a
    failing tenant/product query before the entity-id index is asked, a
    failing entity-id query whatever the tenant/product index answered. *)
Theorem lookup_failure_propagates params s e :
  (Js.truthy (tenant params) && Js.truthy (product params) = true →
   getByIndex (connection this) TenantProduct
     (keyFromParts env (Js.toString (tenant params)) (Js.toString (product params)))
   = Err e →
   resolveConnection env this params s
   = (Err e,
      record (GetByIndex TenantProduct
                (keyFromParts env (Js.toString (tenant params))
                   (Js.toString (product params)))) s))
  ∧ (Js.truthy (entityId params) = true →
     getByIndex (connection this) EntityID (Js.toString (entityId params)) = Err e →
     (Js.truthy (tenant params) && Js.truthy (product params) = true →
      ∃ r, getByIndex (connection this) TenantProduct
             (keyFromParts env (Js.toString (tenant params))
                (Js.toString (product params))) = Ok r) →
     (resolveConnection env this params s).1 = Err e).
Proof.
  split.
  - intros Htp Hr. unfold resolveConnection, lookupConnections, bind, call.
    by rewrite Htp, Hr.
  - intros He Hr Hok. unfold resolveConnection, lookupConnections, bind, call, ret.
    rewrite He, Hr.
    destruct (Js.truthy (tenant params) && Js.truthy (product params)); [|done].
    destruct (Hok eq_refl) as [r ->]. done.
Qed.

(** X6. Whenever the call resolves to a connection, that connection is one
    of those the lookups found, and when a hint was supplied its clientID is
    the hint. *)
Theorem resolved_connection_was_found params s connections s' c s'' :
  lookupConnections env this params s = (Ok connections, s') →
  resolveConnection env this params s = (Ok (Connection c), s'') →
  ∃ found,
    connections = Some found
    ∧ c ∈ found
    ∧ (Js.truthy (idp_hint params) = true →
       clientID c = Js.toString (idp_hint params)).
Proof.
  intros Hlookup. rewrite (resolveConnection_after_lookup env this _ _ _ _ Hlookup).
  unfold selectConnection, bind, lift, ret, throw.
  destruct connections as [[|first rest]|]; [done| |done].
  intros H. exists (first :: rest). split; [done|].
  destruct (Js.truthy (idp_hint params)).
  - destruct (find _ (first :: rest)) as [c'|] eqn:F; [|done].
    apply find_some in F as [Hin Heq]. apply String.eqb_eq in Heq.
    simplify_eq. split; [by apply list_elem_of_In | done].
  - split; [|done].
    repeat case_match; simplify_eq; apply list_elem_of_here.
Qed.

End ResolveConnectionBranches.

(** ** More on sessions *)

Section SessionsFurther.

Context (env : Imports) (this : SSOHandler).

(** X8. When the store rejects the write, [createSession] rejects with the
    store's error and returns no token; nothing is stored, and the random
    bytes drawn for the identifier are spent. *)
Theorem createSession_store_rejects requestId context verifier nonce s e :
  put (session this) (nextSessionId env s)
    (newSession requestId context verifier nonce) = Err e →
  (createSession env this requestId context verifier nonce s).1 = Err e
  ∧ sessions (createSession env this requestId context verifier nonce s).2 = sessions s
  ∧ draws (createSession env this requestId context verifier nonce s).2 = S (draws s).
Proof.
  intros Hput. by rewrite (createSession_rejected env this _ _ _ _ _ _ Hput).
Qed.

(** X9. An accepted [createSession] leaves every session stored under
    another identifier as it was. *)
Theorem createSession_keeps_other_sessions requestId context verifier nonce s k :
  put (session this) (nextSessionId env s)
    (newSession requestId context verifier nonce) = Ok () →
  k ≠ nextSessionId env s →
  sessions (createSession env this requestId context verifier nonce s).2 !! k
  = sessions s !! k.
Proof.
  intros Hput Hk. rewrite (createSession_accepted env this _ _ _ _ _ Hput).
  cbn [snd sessions]. by apply lookup_insert_ne.
Qed.

(** X10. Every token [createSession] returns is the relay-state prefix
    followed by 32 lower-case hexadecimal digits. *)
Theorem relay_state_token_shape requestId context verifier nonce s token :
  (createSession env this requestId context verifier nonce s).1 = Ok token →
  ∃ sessionId,
    token = relayStatePrefix env +:+ sessionId
    ∧ String.length sessionId = 32%nat
    ∧ allChars isLowerHexDigit sessionId = true.
Proof.
  unfold createSession, bind, randomBytes, sessionPut, ret. cbv beta iota zeta.
  destruct (put (session this) _ _); [|done]. intros [= <-].
  eexists. split; [reflexivity|]. split.
  - reflexivity.
  - exact (HexFacts.toHex_allChars (drawnBytes env (draws s))).
Qed.

(** X11. Two sessions created one after the other, both accepted by the
    store: when the two draws of 16 random bytes differ, the identifiers
    differ and each session is found under its own; when the draws coincide
    the second session replaces the first, for [createSession] makes no
    check. *)
Theorem createSession_twice
    requestId1 context1 verifier1 nonce1 requestId2 context2 verifier2 nonce2 s :
  put (session this) (Encoding.toHex (drawnBytes env (draws s)))
    (newSession requestId1 context1 verifier1 nonce1) = Ok () →
  put (session this) (Encoding.toHex (drawnBytes env (S (draws s))))
    (newSession requestId2 context2 verifier2 nonce2) = Ok () →
  let after :=
    (createSession env this requestId2 context2 verifier2 nonce2
       (createSession env this requestId1 context1 verifier1 nonce1 s).2).2 in
  (drawnBytes env (draws s) ≠ drawnBytes env (S (draws s)) →
   Encoding.toHex (drawnBytes env (draws s))
   ≠ Encoding.toHex (drawnBytes env (S (draws s)))
   ∧ sessions after !! Encoding.toHex (drawnBytes env (draws s))
     = Some (newSession requestId1 context1 verifier1 nonce1)
   ∧ sessions after !! Encoding.toHex (drawnBytes env (S (draws s)))
     = Some (newSession requestId2 context2 verifier2 nonce2))
  ∧ (drawnBytes env (draws s) = drawnBytes env (S (draws s)) →
     sessions after !! Encoding.toHex (drawnBytes env (draws s))
     = Some (newSession requestId2 context2 verifier2 nonce2)).
Proof.
  intros Hput1 Hput2 after. subst after.
  rewrite (createSession_accepted env this _ _ _ _ _ Hput1). cbn [snd].
  rewrite (createSession_accepted env this requestId2 context2 verifier2 nonce2)
    by exact Hput2.
  cbn [snd sessions]. unfold nextSessionId. cbn [draws]. fold (drawnBytes env (draws s)).
  fold (drawnBytes env (S (draws s))). split.
  - intros Hdiff.
    assert (Encoding.toHex (drawnBytes env (draws s))
            ≠ Encoding.toHex (drawnBytes env (S (draws s)))) as Hne.
    { intros H. by apply Hdiff, HexFacts.toHex_inj. }
    split; [done|]. split.
    + rewrite lookup_insert_ne by done. apply lookup_insert_eq.
    + apply lookup_insert_eq.
  - intros ->. apply lookup_insert_eq.
Qed.

End SessionsFurther.

(** ** More on building a SAML request *)

Section SAMLRequestFurther.

Context (env : Imports) (this : SSOHandler).

(** X12. A failure to fetch the certificate, or of [saml.request] to build
    the request, ends [createSAMLRequest] with that error, unwrapped, before
    any session is written: the session store is as it was, and the calls
    made are the one that failed and those before it. *)
Theorem createSAMLRequest_fails_before_session connection requestParams s e :
  (getDefaultCertificate env = Err e →
   (createSAMLRequest env this connection requestParams s).1 = Err e
   ∧ sessions (createSAMLRequest env this connection requestParams s).2 = sessions s
   ∧ trace (createSAMLRequest env this connection requestParams s).2
     = trace s ++ [GetDefaultCertificate])
  ∧ (∀ certificate,
       getDefaultCertificate env = Ok certificate →
       saml_request env
         (samlRequestOptions this connection certificate
            (selectEndpoint (sso (idpMetadata connection))).1) = Err e →
       (createSAMLRequest env this connection requestParams s).1 = Err e
       ∧ sessions (createSAMLRequest env this connection requestParams s).2
         = sessions s
       ∧ trace (createSAMLRequest env this connection requestParams s).2
         = trace s
           ++ [GetDefaultCertificate;
               SamlRequest
                 (samlRequestOptions this connection certificate
                    (selectEndpoint (sso (idpMetadata connection))).1)]).
Proof.
  split.
  - intros Hcert. unfold createSAMLRequest, bind, call. by rewrite Hcert.
  - intros certificate Hcert Hreq. unfold createSAMLRequest, bind, call.
    rewrite Hcert. destruct (selectEndpoint _) as [ssoUrl post].
    simpl in Hreq |- *. rewrite Hreq. simpl. by rewrite <- app_assoc.
Qed.

(** X13. Under the HTTP-Redirect binding, a failure of [deflateRaw] or of
    [redirect.success] ends [createSAMLRequest] with that error after the
    session was written: the session stays in the store. *)
Theorem createSAMLRequest_fails_after_session
    connection requestParams s certificate samlRequest url e :
  getDefaultCertificate env = Ok certificate →
  saml_request env
    (samlRequestOptions this connection certificate
       (selectEndpoint (sso (idpMetadata connection))).1) = Ok samlRequest →
  put (session this) (nextSessionId env s)
    (newSession (request_id samlRequest) (samlRequested connection requestParams)
       None None) = Ok () →
  redirectUrl (sso (idpMetadata connection)) = Some url →
  deflateRaw env (request samlRequest) = Err e
  ∨ (∃ deflated,
       deflateRaw env (request samlRequest) = Ok deflated
       ∧ redirect_success env (Some url)
           [("RelayState", relayStatePrefix env +:+ nextSessionId env s);
            ("SAMLRequest", Encoding.toBase64 deflated)] = Err e) →
  (createSAMLRequest env this connection requestParams s).1 = Err e
  ∧ sessions (createSAMLRequest env this connection requestParams s).2
      !! nextSessionId env s
    = Some (newSession (request_id samlRequest)
              (samlRequested connection requestParams) None None).
Proof.
  intros Hcert Hreq Hput Hredirect Hfail.
  rewrite (createSAMLRequest_run env this _ _ _ _ _ Hcert Hreq Hput).
  split; [|rewrite encodeBinding_sessions; apply lookup_insert_eq].
  unfold selectEndpoint. rewrite Hredirect.
  unfold encodeBinding, bind, call, lift. simpl.
  destruct Hfail as [-> | (deflated & -> & Hfail)]; [done|].
  change (Js.literal ?l) with l. by rewrite Hfail.
Qed.

Lemma encodeBinding_one_output ssoUrl post samlRequest relayState s r :
  (encodeBinding env ssoUrl post samlRequest relayState s).1 = Ok r →
  (is_Some (redirect_url r) ∧ authorize_form r = None)
  ∨ (redirect_url r = None ∧ is_Some (authorize_form r)).
Proof.
  unfold encodeBinding, bind, call, lift, ret. destruct post; simpl.
  - intros [= <-]. right. by split.
  - destruct (deflateRaw env _); [|done].
    destruct (redirect_success env _ _); [|done].
    intros [= <-]. left. by split.
Qed.

(** X14. Whenever [createSAMLRequest] fulfils, exactly one of [redirect_url]
    and [authorize_form] is populated. *)
Theorem createSAMLRequest_one_output connection requestParams s r :
  (createSAMLRequest env this connection requestParams s).1 = Ok r →
  (is_Some (redirect_url r) ∧ authorize_form r = None)
  ∨ (redirect_url r = None ∧ is_Some (authorize_form r)).
Proof.
  unfold createSAMLRequest, bind at 1 2, call.
  destruct (getDefaultCertificate env); [|done].
  destruct (selectEndpoint _) as [ssoUrl post].
  destruct (saml_request env _); [|done]. unfold bind.
  destruct (createSession env this _ _ _ _ _) as [[relayState|e] s1]; [|done].
  apply encodeBinding_one_output.
Qed.

End SAMLRequestFurther.

(** ** More on building an OIDC request *)

Section OIDCRequestFurther.

Context (env : Imports) (this : SSOHandler).

(** X15. With [oidcPath] configured, the issuer found, the client built, the
    session accepted and the authorization URL built, [createOIDCRequest]
    returns that URL. It was asked for with the challenge of the code verifier
    just generated, method S256, the scopes openid email profile, the nonce
    just generated and, as [state], the relay-state token; and the store
    holds under that token's identifier the session made of the clientID of
    the connection, the caller's parameters as they came, that verifier and
    that nonce. *)
Theorem createOIDCRequest_success connection requestParams s issuer client url :
  Js.truthy (oidcPath (opts this)) = true →
  oidcIssuerInstance env (discoveryUrl (oidcProvider connection))
    (metadata (oidcProvider connection)) = Ok issuer →
  issuer_Client env issuer
    {| client_id := clientId (oidcProvider connection);
       client_secret := clientSecret (oidcProvider connection);
       redirect_uris :=
         [externalUrl (opts this) +:+ Js.toString (oidcPath (opts this))];
       response_types := ["code"] |} = Ok client →
  put (session this) (Encoding.toHex (drawnBytes env (S (S (draws s)))))
    (newSession (oidc_clientID connection) requestParams
       (Some (generators_codeVerifier env (draws s)))
       (Some (generators_nonce env (S (draws s))))) = Ok () →
  client_authorizationUrl env client
    {| scope := "openid email profile";
       code_challenge :=
         generators_codeChallenge env (generators_codeVerifier env (draws s));
       code_challenge_method := "S256";
       state :=
         relayStatePrefix env +:+ Encoding.toHex (drawnBytes env (S (S (draws s))));
       nonce := generators_nonce env (S (draws s)) |} = Ok url →
  (createOIDCRequest env this connection requestParams s).1
  = Ok {| oidc_redirect_url := url |}
  ∧ sessions (createOIDCRequest env this connection requestParams s).2
      !! Encoding.toHex (drawnBytes env (S (S (draws s))))
    = Some (newSession (oidc_clientID connection) requestParams
              (Some (generators_codeVerifier env (draws s)))
              (Some (generators_nonce env (S (draws s))))).
Proof.
  intros Hpath Hissuer Hclient Hput Hurl.
  unfold createOIDCRequest. rewrite Hpath. cbn [negb].
  unfold createSession, tryCatch, bind, call, lift, codeVerifier, generateNonce,
    randomBytes, sessionPut, ret, record.
  rewrite Hissuer, Hclient. cbn [draws sessions trace].
  unfold drawnBytes in Hput, Hurl |- *. rewrite Hput, Hurl.
  split; [done|]. cbn [snd sessions]. apply lookup_insert_eq.
Qed.

Lemma tryCatch_Err {A} (m : M A) (h : Error → M A) s e :
  (tryCatch m h s).1 = Err e → ∃ e0 s1, (h e0 s1).1 = Err e.
Proof.
  unfold tryCatch. destruct (m s) as [[a|e0] s1]; [done|]. by exists e0, s1.
Qed.

(** X16. Every error [createOIDCRequest] rejects with is a [JacksonError]
    of status 400: the one for the missing [oidcPath], or the message of
    whatever failed after it behind 'Unable to complete OIDC request. - '. *)
Theorem createOIDCRequest_rejects_with_400 connection requestParams s e :
  (createOIDCRequest env this connection requestParams s).1 = Err e →
  e = JacksonError "OpenID response handler path (oidcPath) is not set" 400
  ∨ ∃ cause,
      e = JacksonError ("Unable to complete OIDC request. - " +:+ message cause) 400.
Proof.
  unfold createOIDCRequest. destruct (Js.truthy (oidcPath (opts this))); cbn [negb].
  - intros (cause & s1 & H)%tryCatch_Err. right. exists cause.
    unfold bind, call, throw in H. simpl in H. congruence.
  - intros [= <-]. by left.
Qed.

(** X17. When the issuer cannot be found, [createOIDCRequest] logs the
    error, rejects with its message wrapped in a 400 error, and has neither
    generated a verifier or a nonce nor written a session. *)
Theorem createOIDCRequest_issuer_failure connection requestParams s cause :
  Js.truthy (oidcPath (opts this)) = true →
  oidcIssuerInstance env (discoveryUrl (oidcProvider connection))
    (metadata (oidcProvider connection)) = Err cause →
  createOIDCRequest env this connection requestParams s
  = (Err (JacksonError ("Unable to complete OIDC request. - " +:+ message cause) 400),
     {| sessions := sessions s; draws := draws s;
        trace :=
          trace s ++ [OidcIssuerInstance (discoveryUrl (oidcProvider connection));
                      ConsoleError cause] |}).
Proof.
  intros Hpath Hissuer. unfold createOIDCRequest. rewrite Hpath. cbn [negb].
  unfold tryCatch, bind, call, throw, record. rewrite Hissuer.
  cbn [sessions draws trace]. by rewrite <- app_assoc.
Qed.

(** X18. A session store that rejects the write makes [createOIDCRequest]
    reject with a 400 error that wraps the store's message, a JacksonError of
    the store's own included; no authorization URL is asked for. *)
Theorem createOIDCRequest_store_rejects connection requestParams s issuer client cause :
  Js.truthy (oidcPath (opts this)) = true →
  oidcIssuerInstance env (discoveryUrl (oidcProvider connection))
    (metadata (oidcProvider connection)) = Ok issuer →
  issuer_Client env issuer
    {| client_id := clientId (oidcProvider connection);
       client_secret := clientSecret (oidcProvider connection);
       redirect_uris :=
         [externalUrl (opts this) +:+ Js.toString (oidcPath (opts this))];
       response_types := ["code"] |} = Ok client →
  put (session this) (Encoding.toHex (drawnBytes env (S (S (draws s)))))
    (newSession (oidc_clientID connection) requestParams
       (Some (generators_codeVerifier env (draws s)))
       (Some (generators_nonce env (S (draws s))))) = Err cause →
  (createOIDCRequest env this connection requestParams s).1
  = Err (JacksonError ("Unable to complete OIDC request. - " +:+ message cause) 400)
  ∧ sessions (createOIDCRequest env this connection requestParams s).2 = sessions s.
Proof.
  intros Hpath Hissuer Hclient Hput.
  unfold createOIDCRequest. rewrite Hpath. cbn [negb].
  unfold createSession, tryCatch, bind, call, lift, codeVerifier, generateNonce,
    randomBytes, sessionPut, ret, throw, record.
  rewrite Hissuer, Hclient. cbn [draws sessions trace].
  unfold drawnBytes in Hput |- *. by rewrite Hput.
Qed.

End OIDCRequestFurther.

(** ** More on building a SAML response *)

Section SAMLResponseFurther.

Context (env : Imports) (this : SSOHandler).

(** X19. With the certificate fetched and the response built and signed,
    [createSAMLResponse] returns the form [saml.createPostForm] makes for
    [session.requested.acsUrl] with the hidden fields RelayState, taken from
    [session.requested.relayState], and SAMLResponse, the base64 of the
    signed response; a property missing from [session.requested] goes in as
    undefined. The response was asked for with audience, ACS URL and request
    id read from [session.requested], the broker's audience as issuer and
    the certificate's key pair. *)
Theorem createSAMLResponse_form profile session s certificate signed :
  getDefaultCertificate env = Ok certificate →
  lib_createSAMLResponse env
    {| resp_audience := default Js.Undefined (requested session !! "entityId");
       resp_acsUrl := default Js.Undefined (requested session !! "acsUrl");
       resp_requestId := default Js.Undefined (requested session !! "id");
       resp_issuer := Js.toString (samlAudience (opts this));
       resp_profile := profile;
       resp_publicKey := publicKey certificate;
       resp_privateKey := privateKey certificate |} = Ok signed →
  (createSAMLResponse env this profile session s).1
  = Ok {| responseForm :=
            saml_createPostForm env
              (default Js.Undefined (requested session !! "acsUrl"))
              [("RelayState",
                default Js.Undefined (requested session !! "relayState"));
               ("SAMLResponse",
                Js.Str (Encoding.toBase64 (Encoding.bytesOf signed)))] |}.
Proof.
  intros Hcert Hsigned.
  unfold createSAMLResponse, tryCatch, bind, call, samlResponseOptions, JsValue.prop.
  by rewrite Hcert, Hsigned.
Qed.


End SAMLResponseFurther.

(** ** The further properties, run *)

Lemma single_connection_resolved_witness :
  resolveConnection Demo.env Demo.handler
    (Demo.resolveParams oauth [] None None (Some "idp-1") None) Demo.initial
  = (Ok (Connection Demo.google), record (GetByIndex EntityID "idp-1") Demo.initial)
  ∧ resolveConnection Demo.env Demo.handler
      (Demo.resolveParams oauth [] None None (Some "idp-1") (Some "client-okta"))
      Demo.initial
    = (Err (JacksonError "No SSO connection found." 404),
       record (GetByIndex EntityID "idp-1") Demo.initial).
Proof.
  split.
  - exact (single_connection_resolved Demo.env Demo.handler
             (Demo.resolveParams oauth [] None None (Some "idp-1") None)
             Demo.initial Demo.google
             (record (GetByIndex EntityID "idp-1") Demo.initial) eq_refl).
  - exact (single_connection_resolved Demo.env Demo.handler
             (Demo.resolveParams oauth [] None None (Some "idp-1") (Some "client-okta"))
             Demo.initial Demo.google
             (record (GetByIndex EntityID "idp-1") Demo.initial) eq_refl).
Defined.

Lemma idp_initiated_discovery_form_witness :
  resolveConnection Demo.env Demo.handler
    (Demo.resolveParams idp_initiated [("SAMLResponse", "abc123")] None None
       (Some "idp-2") None) Demo.initial
  = (Ok (PostForm
           "<form method='post' action='/idp/select?entityId=idp-2&authFlow=idp-initiated'><input type='hidden' name='SAMLResponse' value='abc123'/></form>"),
     record (GetByIndex EntityID "idp-2") Demo.initial).
Proof.
  exact (idp_initiated_discovery_form Demo.env Demo.handler
           (Demo.resolveParams idp_initiated [("SAMLResponse", "abc123")] None None
              (Some "idp-2") None)
           Demo.initial [Demo.azure; Demo.google]
           (record (GetByIndex EntityID "idp-2") Demo.initial)
           "https://sso.example.com/idp/select" "idp-2"
           eq_refl ltac:(simpl; lia) eq_refl eq_refl eq_refl ltac:(discriminate)
           eq_refl).
Defined.

Lemma ambiguous_resolves_to_first_witness :
  resolveConnection Demo.env Demo.handler
    (Demo.resolveParams saml [] None None (Some "idp-2") None) Demo.initial
  = (Ok (Connection Demo.azure), record (GetByIndex EntityID "idp-2") Demo.initial).
Proof.
  apply (ambiguous_resolves_to_first Demo.env Demo.handler
           (Demo.resolveParams saml [] None None (Some "idp-2") None)
           Demo.initial Demo.azure [Demo.google]
           (record (GetByIndex EntityID "idp-2") Demo.initial)
           "https://sso.example.com/idp/select").
  - reflexivity.
  - discriminate.
  - reflexivity.
  - reflexivity.
  - left. split; [discriminate | reflexivity].
Defined.

Lemma invalid_discovery_url_rejects_witness :
  resolveConnection Faulty.envUrlInvalid Demo.handler
    (Demo.resolveParams saml [] None None (Some "idp-2") None) Demo.initial
  = (Err (Thrown "TypeError" "Invalid URL"),
     record (GetByIndex EntityID "idp-2") Demo.initial).
Proof.
  apply (invalid_discovery_url_rejects Faulty.envUrlInvalid Demo.handler
           (Demo.resolveParams saml [] None None (Some "idp-2") None)
           Demo.initial [Demo.azure; Demo.google]).
  - reflexivity.
  - simpl. lia.
  - reflexivity.
  - reflexivity.
Defined.

Lemma lookup_failure_propagates_witness :
  resolveConnection Demo.env Faulty.handlerConnectionsDown
    (Demo.resolveParams saml [] (Some "acme") (Some "crm") (Some "idp-1") None)
    Demo.initial
  = (Err Faulty.refused, record (GetByIndex TenantProduct "acme:crm") Demo.initial)
  ∧ (resolveConnection Demo.env Faulty.handlerConnectionsDown
       (Demo.resolveParams saml [] None None (Some "idp-1") None) Demo.initial).1
    = Err Faulty.refused.
Proof.
  split.
  - apply (proj1 (lookup_failure_propagates Demo.env Faulty.handlerConnectionsDown
                    (Demo.resolveParams saml [] (Some "acme") (Some "crm")
                       (Some "idp-1") None)
                    Demo.initial Faulty.refused)); reflexivity.
  - apply (proj2 (lookup_failure_propagates Demo.env Faulty.handlerConnectionsDown
                    (Demo.resolveParams saml [] None None (Some "idp-1") None)
                    Demo.initial Faulty.refused)); [reflexivity | reflexivity |].
    intros H. discriminate H.
Defined.

Lemma resolved_connection_was_found_witness :
  ∃ found,
    Some [Demo.okta; Demo.azure] = Some found
    ∧ Demo.azure ∈ found
    ∧ (true = true → clientID Demo.azure = "client-azure").
Proof.
  exact (resolved_connection_was_found Demo.env Demo.handler
           (Demo.resolveParams saml [] (Some "acme") (Some "crm") None
              (Some "client-azure"))
           Demo.initial (Some [Demo.okta; Demo.azure])
           (record (GetByIndex TenantProduct "acme:crm") Demo.initial)
           Demo.azure
           (record (GetByIndex TenantProduct "acme:crm") Demo.initial)
           eq_refl eq_refl).
Defined.

Lemma createSession_store_rejects_witness :
  (createSession Demo.env Faulty.handlerSessionsDown "_4f2a" ∅ None None
     Demo.initial).1 = Err Faulty.refused
  ∧ sessions (createSession Demo.env Faulty.handlerSessionsDown "_4f2a" ∅ None None
                Demo.initial).2 = ∅
  ∧ draws (createSession Demo.env Faulty.handlerSessionsDown "_4f2a" ∅ None None
             Demo.initial).2 = 1%nat.
Proof.
  exact (createSession_store_rejects Demo.env Faulty.handlerSessionsDown "_4f2a" ∅
           None None Demo.initial Faulty.refused eq_refl).
Defined.

Lemma createSession_keeps_other_sessions_witness :
  sessions (createSession Demo.env Demo.handler "_4f2a" ∅ None None
              {| sessions := {["0000" := Demo.federated]}; draws := 0; trace := [] |}).2
    !! "0000"
  = Some Demo.federated.
Proof.
  rewrite (createSession_keeps_other_sessions Demo.env Demo.handler "_4f2a" ∅ None None
             {| sessions := {["0000" := Demo.federated]}; draws := 0; trace := [] |}
             "0000" eq_refl ltac:(discriminate)).
  reflexivity.
Defined.

Lemma relay_state_token_shape_witness :
  ∃ sessionId,
    "boxyhq_jackson_5a5a5a5a5a5a5a5a5a5a5a5a5a5a5a5a" = "boxyhq_jackson_" +:+ sessionId
    ∧ String.length sessionId = 32%nat
    ∧ allChars isLowerHexDigit sessionId = true.
Proof.
  exact (relay_state_token_shape Demo.env Demo.handler "_4f2a" ∅ None None
           Demo.initial "boxyhq_jackson_5a5a5a5a5a5a5a5a5a5a5a5a5a5a5a5a" eq_refl).
Defined.

Lemma createSession_twice_witness :
  sessions
    (createSession Faulty.envFreshDraws Demo.handler "second" ∅ None None
       (createSession Faulty.envFreshDraws Demo.handler "first" ∅ None None
          Demo.initial).2).2
    !! "5a5a5a5a5a5a5a5a5a5a5a5a5a5a5a5a"
  = Some (newSession "first" ∅ None None)
  ∧ sessions
      (createSession Demo.env Demo.handler "second" ∅ None None
         (createSession Demo.env Demo.handler "first" ∅ None None Demo.initial).2).2
      !! "5a5a5a5a5a5a5a5a5a5a5a5a5a5a5a5a"
    = Some (newSession "second" ∅ None None).
Proof.
  split.
  - apply (proj1 (createSession_twice Faulty.envFreshDraws Demo.handler
                    "first" ∅ None None "second" ∅ None None Demo.initial
                    eq_refl eq_refl)).
    intros H. discriminate H.
  - apply (proj2 (createSession_twice Demo.env Demo.handler
                    "first" ∅ None None "second" ∅ None None Demo.initial
                    eq_refl eq_refl)).
    reflexivity.
Defined.

Lemma createSAMLRequest_fails_before_session_witness :
  ((createSAMLRequest Demo.envWithoutCertificate Demo.handler (Demo.samlOf Demo.azure) ∅
      Demo.initial).1
   = Err (Thrown "Error" "No certificate found")
   ∧ sessions (createSAMLRequest Demo.envWithoutCertificate Demo.handler
                 (Demo.samlOf Demo.azure) ∅ Demo.initial).2 = ∅
   ∧ trace (createSAMLRequest Demo.envWithoutCertificate Demo.handler
              (Demo.samlOf Demo.azure) ∅ Demo.initial).2 = [GetDefaultCertificate])
  ∧ (createSAMLRequest Faulty.envRequestFails Demo.handler (Demo.samlOf Demo.azure) ∅
       Demo.initial).1
    = Err (Thrown "Error" "no signing key")
  ∧ sessions (createSAMLRequest Faulty.envRequestFails Demo.handler
                (Demo.samlOf Demo.azure) ∅ Demo.initial).2 = ∅.
Proof.
  split.
  - apply (proj1 (createSAMLRequest_fails_before_session Demo.envWithoutCertificate
                    Demo.handler (Demo.samlOf Demo.azure) ∅ Demo.initial
                    (Thrown "Error" "No certificate found"))).
    reflexivity.
  - destruct (proj2 (createSAMLRequest_fails_before_session Faulty.envRequestFails
                       Demo.handler (Demo.samlOf Demo.azure) ∅ Demo.initial
                       (Thrown "Error" "no signing key"))
                {| publicKey := "PUBLIC KEY"; privateKey := "PRIVATE KEY" |}
                eq_refl eq_refl) as (Hresult & Hsessions & _).
    split; [exact Hresult | exact Hsessions].
Defined.

Lemma createSAMLRequest_fails_after_session_witness :
  (createSAMLRequest Faulty.envDeflateFails Demo.handler (Demo.samlOf Demo.okta) ∅
     Demo.initial).1
  = Err (Thrown "Error" "zlib")
  ∧ is_Some (sessions (createSAMLRequest Faulty.envDeflateFails Demo.handler
                         (Demo.samlOf Demo.okta) ∅ Demo.initial).2
               !! Demo.sessionId).
Proof.
  destruct (createSAMLRequest_fails_after_session Faulty.envDeflateFails Demo.handler
              (Demo.samlOf Demo.okta) ∅ Demo.initial
              {| publicKey := "PUBLIC KEY"; privateKey := "PRIVATE KEY" |}
              Faulty.authnRequest "https://okta.example.com/sso/redirect"
              (Thrown "Error" "zlib") eq_refl eq_refl eq_refl eq_refl
              (or_introl eq_refl)) as [Hresult Hsession].
  split; [exact Hresult|]. eexists. exact Hsession.
Defined.

Lemma createSAMLRequest_one_output_witness :
  ∃ r,
    (createSAMLRequest Demo.env Demo.handler (Demo.samlOf Demo.azure) ∅
       Demo.initial).1 = Ok r
    ∧ redirect_url r = None
    ∧ is_Some (authorize_form r).
Proof.
  eexists. split; [reflexivity|].
  destruct (createSAMLRequest_one_output Demo.env Demo.handler
              (Demo.samlOf Demo.azure) ∅ Demo.initial _ eq_refl)
    as [[[url Hurl] _] | H].
  - discriminate Hurl.
  - exact H.
Defined.

Lemma createOIDCRequest_success_witness :
  (createOIDCRequest Demo.env Demo.handler
     {| oidc_clientID := "client-google";
        oidcProvider := {| discoveryUrl := None; metadata := None;
                           clientId := Some "broker"; clientSecret := Some "s3cret" |} |}
     {["state" := Js.Str "xyz"]} Demo.initial).1
  = Ok {| oidc_redirect_url :=
            "https://accounts.example.org/authorize?state=boxyhq_jackson_5a5a5a5a5a5a5a5a5a5a5a5a5a5a5a5a" |}
  ∧ sessions
      (createOIDCRequest Demo.env Demo.handler
         {| oidc_clientID := "client-google";
            oidcProvider := {| discoveryUrl := None; metadata := None;
                               clientId := Some "broker";
                               clientSecret := Some "s3cret" |} |}
         {["state" := Js.Str "xyz"]} Demo.initial).2 !! Demo.sessionId
    = Some {| id := "client-google"; requested := {["state" := Js.Str "xyz"]};
              samlFederated := true; oidcCodeVerifier := Some "verifier";
              oidcNonce := Some "nonce" |}.
Proof.
  exact (createOIDCRequest_success Demo.env Demo.handler
           {| oidc_clientID := "client-google";
              oidcProvider := {| discoveryUrl := None; metadata := None;
                                 clientId := Some "broker";
                                 clientSecret := Some "s3cret" |} |}
           {["state" := Js.Str "xyz"]} Demo.initial
           {| issuer_metadata := ∅ |}
           {| client_issuer := {| issuer_metadata := ∅ |};
              client_metadata :=
                {| client_id := Some "broker"; client_secret := Some "s3cret";
                   redirect_uris := ["https://sso.example.com/api/oauth/oidc"];
                   response_types := ["code"] |} |}
           "https://accounts.example.org/authorize?state=boxyhq_jackson_5a5a5a5a5a5a5a5a5a5a5a5a5a5a5a5a"
           eq_refl eq_refl eq_refl eq_refl eq_refl).
Defined.

Lemma createOIDCRequest_rejects_with_400_witness :
  Faulty.refused = JacksonError "OpenID response handler path (oidcPath) is not set" 400
  ∨ ∃ cause,
      JacksonError "Unable to complete OIDC request. - issuer unreachable" 400
      = JacksonError ("Unable to complete OIDC request. - " +:+ message cause) 400.
Proof.
  right.
  destruct (createOIDCRequest_rejects_with_400 Faulty.envIssuerFails Demo.handler
              {| oidc_clientID := "client-google";
                 oidcProvider := {| discoveryUrl := None; metadata := None;
                                    clientId := Some "broker"; clientSecret := None |} |}
              ∅ Demo.initial
              (JacksonError "Unable to complete OIDC request. - issuer unreachable" 400)
              eq_refl) as [H | H].
  - discriminate H.
  - exact H.
Defined.

Lemma createOIDCRequest_issuer_failure_witness :
  createOIDCRequest Faulty.envIssuerFails Demo.handler
    {| oidc_clientID := "client-google";
       oidcProvider := {| discoveryUrl := None; metadata := None;
                          clientId := Some "broker"; clientSecret := None |} |}
    ∅ Demo.initial
  = (Err (JacksonError "Unable to complete OIDC request. - issuer unreachable" 400),
     {| sessions := ∅; draws := 0;
        trace := [OidcIssuerInstance None;
                  ConsoleError (Thrown "OPError" "issuer unreachable")] |}).
Proof.
  exact (createOIDCRequest_issuer_failure Faulty.envIssuerFails Demo.handler
           {| oidc_clientID := "client-google";
              oidcProvider := {| discoveryUrl := None; metadata := None;
                                 clientId := Some "broker"; clientSecret := None |} |}
           ∅ Demo.initial (Thrown "OPError" "issuer unreachable") eq_refl eq_refl).
Defined.

Lemma createOIDCRequest_store_rejects_witness :
  (createOIDCRequest Demo.env Faulty.handlerSessionsDown
     {| oidc_clientID := "client-google";
        oidcProvider := {| discoveryUrl := None; metadata := None;
                           clientId := Some "broker"; clientSecret := None |} |}
     ∅ Demo.initial).1
  = Err (JacksonError "Unable to complete OIDC request. - connection refused" 400)
  ∧ sessions
      (createOIDCRequest Demo.env Faulty.handlerSessionsDown
         {| oidc_clientID := "client-google";
            oidcProvider := {| discoveryUrl := None; metadata := None;
                               clientId := Some "broker"; clientSecret := None |} |}
         ∅ Demo.initial).2 = ∅.
Proof.
  exact (createOIDCRequest_store_rejects Demo.env Faulty.handlerSessionsDown
           {| oidc_clientID := "client-google";
              oidcProvider := {| discoveryUrl := None; metadata := None;
                                 clientId := Some "broker"; clientSecret := None |} |}
           ∅ Demo.initial
           {| issuer_metadata := ∅ |}
           {| client_issuer := {| issuer_metadata := ∅ |};
              client_metadata :=
                {| client_id := Some "broker"; client_secret := None;
                   redirect_uris := ["https://sso.example.com/api/oauth/oidc"];
                   response_types := ["code"] |} |}
           Faulty.refused eq_refl eq_refl eq_refl eq_refl).
Defined.

Lemma createSAMLResponse_form_witness :
  (createSAMLResponse Demo.env Demo.handler Demo.profile Demo.federated Demo.initial).1
  = Ok {| responseForm :=
            "<form method='post' action='https://app.example.com/acs'><input type='hidden' name='RelayState' value='app-state'/><input type='hidden' name='SAMLResponse' value='PHNhbWxwOlJlc3BvbnNlLz4='/></form>" |}.
Proof.
  exact (createSAMLResponse_form Demo.env Demo.handler Demo.profile Demo.federated
           Demo.initial {| publicKey := "PUBLIC KEY"; privateKey := "PRIVATE KEY" |}
           "<samlp:Response/>" eq_refl eq_refl).
Defined.
